(** * Spaced-repetition tracker: the date module [dates.mjs]

    A shallow embedding of [src/dates.mjs].  The module is written against
    the JavaScript [Date] built-in, so the embedding has three layers:

    - the ECMAScript date arithmetic on time values (milliseconds since the
      epoch, or NaN): [Day], [YearFromTime], [MakeDay], [TimeClip], ...;
    - [Date] objects as locations of a heap holding their time value, with
      the methods the module calls ([setUTCDate], [getUTCFullYear], ...)
      written in a state-and-exception monad;
    - the exported functions of [dates.mjs] themselves, line by line.

    Numbers are modelled as [NaN] or an integer.  Every Number the module
    handles is a field of a date, a time value or an integer offset, all of
    which are integers; values beyond the time-value range (about 8.64e15,
    below 2^53) only ever reach [TimeClip], which maps them to NaN. *)

From Stdlib Require Import ZArith Lia Bool List Ascii String DecimalString.
From Stdlib Require Import Sorted Permutation.
From stdpp Require Import base option gmap strings list.

Local Open Scope Z_scope.

(** ** Numbers *)

Inductive Number : Type :=
| NaN
| Num (z : Z).

#[global] Instance Number_eq_dec : EqDecision Number.
Proof. solve_decision. Defined.

(** [a + b] on Numbers: NaN is absorbing. *)
Definition num_add (a b : Number) : Number :=
  match a, b with
  | Num x, Num y => Num (x + y)
  | _, _ => NaN
  end.

(** [a >= b] on Numbers: false as soon as one side is NaN. *)
Definition num_ge (a b : Number) : bool :=
  match a, b with
  | Num x, Num y => y <=? x
  | _, _ => false
  end.

(** [a <= b] on Numbers: false as soon as one side is NaN. *)
Definition num_le (a b : Number) : bool :=
  match a, b with
  | Num x, Num y => x <=? y
  | _, _ => false
  end.

(** [a % b] on Numbers: the remainder has the sign of the dividend, and is
    NaN when the divisor is zero. *)
Definition num_rem (a b : Number) : Number :=
  match a, b with
  | Num x, Num y => if y =? 0 then NaN else Num (Z.rem x y)
  | _, _ => NaN
  end.

(** ** ECMAScript time values (ECMA-262, "Time Values and Time Range") *)

Module Time.

Definition msPerDay : Z := 86400000.
Definition msPerHour : Z := 3600000.
Definition msPerMinute : Z := 60000.
Definition msPerSecond : Z := 1000.

(** The largest magnitude a time value may have: 8.64e15 ms. *)
Definition maxTime : Z := 8640000000000000.

Definition Day (t : Z) : Z := t / msPerDay.
Definition TimeWithinDay (t : Z) : Z := t mod msPerDay.

Definition DaysInYear (y : Z) : Z :=
  if negb (y mod 4 =? 0) then 365
  else if negb (y mod 100 =? 0) then 366
  else if negb (y mod 400 =? 0) then 365
  else 366.

Definition DayFromYear (y : Z) : Z :=
  365 * (y - 1970) + (y - 1969) / 4 - (y - 1901) / 100 + (y - 1601) / 400.

Definition TimeFromYear (y : Z) : Z := msPerDay * DayFromYear y.

(** [YearFromTime t] is "the largest integer y such that
    [TimeFromYear y <= t]".  It is computed from an estimate by the mean
    length of a year (146097 days in 400 years), which is off by one at
    most; [YearFromTime_spec] below shows it is that largest integer. *)
Definition YearFromDay (d : Z) : Z :=
  let y0 := 1970 + (d * 400) / 146097 in
  if DayFromYear (y0 + 1) <=? d then y0 + 1
  else if DayFromYear y0 <=? d then y0
  else y0 - 1.

Definition YearFromTime (t : Z) : Z := YearFromDay (Day t).

Definition InLeapYear (t : Z) : Z :=
  if DaysInYear (YearFromTime t) =? 366 then 1 else 0.

Definition DayWithinYear (t : Z) : Z :=
  Day t - DayFromYear (YearFromTime t).

Definition MonthFromTime (t : Z) : Z :=
  let d := DayWithinYear t in
  let leap := InLeapYear t in
  if d <? 31 then 0
  else if d <? 59 + leap then 1
  else if d <? 90 + leap then 2
  else if d <? 120 + leap then 3
  else if d <? 151 + leap then 4
  else if d <? 181 + leap then 5
  else if d <? 212 + leap then 6
  else if d <? 243 + leap then 7
  else if d <? 273 + leap then 8
  else if d <? 304 + leap then 9
  else if d <? 334 + leap then 10
  else 11.

Definition DateFromTime (t : Z) : Z :=
  let d := DayWithinYear t in
  let leap := InLeapYear t in
  match MonthFromTime t with
  | 0 => d + 1
  | 1 => d - 30
  | 2 => d - 58 - leap
  | 3 => d - 89 - leap
  | 4 => d - 119 - leap
  | 5 => d - 150 - leap
  | 6 => d - 180 - leap
  | 7 => d - 211 - leap
  | 8 => d - 242 - leap
  | 9 => d - 272 - leap
  | 10 => d - 303 - leap
  | _ => d - 333 - leap
  end.

(** Number of days of the year [y] that precede its month [m] (0-based). *)
Definition DaysBeforeMonth (y m : Z) : Z :=
  let leap := if DaysInYear y =? 366 then 1 else 0 in
  match m with
  | 0 => 0
  | 1 => 31
  | 2 => 59 + leap
  | 3 => 90 + leap
  | 4 => 120 + leap
  | 5 => 151 + leap
  | 6 => 181 + leap
  | 7 => 212 + leap
  | 8 => 243 + leap
  | 9 => 273 + leap
  | 10 => 304 + leap
  | _ => 334 + leap
  end.

(** Length of month [m] (0-based) of year [y]. *)
Definition DaysInMonth (y m : Z) : Z :=
  match m with
  | 1 => if DaysInYear y =? 366 then 29 else 28
  | 3 | 5 | 8 | 10 => 30
  | _ => 31
  end.

(** [MakeDay] on integers: the day number of the first of month
    [month mod 12] of year [year + floor(month / 12)], plus [date - 1]. *)
Definition MakeDayZ (year month date : Z) : Z :=
  let ym := year + month / 12 in
  let mn := month mod 12 in
  DayFromYear ym + DaysBeforeMonth ym mn + date - 1.

(** [MakeDay(year, month, date)]: NaN as soon as one argument is not
    finite. *)
Definition MakeDay (year month date : Number) : Number :=
  match year, month, date with
  | Num y, Num m, Num dt => Num (MakeDayZ y m dt)
  | _, _, _ => NaN
  end.

(** [MakeTime(hour, min, sec, ms)]. *)
Definition MakeTime (hour min sec ms : Number) : Number :=
  match hour, min, sec, ms with
  | Num h, Num m, Num s, Num milli =>
      Num (h * msPerHour + m * msPerMinute + s * msPerSecond + milli)
  | _, _, _, _ => NaN
  end.

(** [MakeDate(day, time)]. *)
Definition MakeDate (day time : Number) : Number :=
  match day, time with
  | Num d, Num tm => Num (d * msPerDay + tm)
  | _, _ => NaN
  end.

(** [TimeClip(time)]: NaN outside of the time-value range. *)
Definition TimeClip (time : Number) : Number :=
  match time with
  | Num t => if maxTime <? Z.abs t then NaN else Num t
  | NaN => NaN
  end.

Definition in_range (t : Z) : Prop := - maxTime <= t <= maxTime.

End Time.

(** ** The host: clock, local time zone, and lenient date parsing *)

(** What ECMAScript leaves to the implementation.  [clock] is the time
    value of the current instant, as [new Date()] reads it; [LocalTZA t] is
    the offset of local time from UTC at the instant [t], in milliseconds;
    [parse_fallback] is what [Date.parse] answers for a string outside of
    the Date Time String Format ("any implementation-specific heuristics").
    Nothing below assumes anything about the three. *)
Record Host : Type := {
  clock : Z;
  LocalTZA : Z -> Z;
  parse_fallback : string -> Number
}.

Definition LocalTime (host : Host) (t : Z) : Z := t + LocalTZA host t.

(** ** [Date.parse]: the Date Time String Format

    [YYYY-MM-DDTHH:mm:ss.sssZ], with the shorter date and time forms, the
    expanded years [+YYYYYY] and [-YYYYYY], and [Z] or [+HH:mm] / [-HH:mm]
    as offset. *)

Module Parse.

Definition digit (c : ascii) : option Z :=
  let n := Z.of_N (N_of_ascii c) in
  if (48 <=? n) && (n <=? 57) then Some (n - 48) else None.

(** Exactly [n] decimal digits: their value and the rest of the string. *)
Fixpoint digits (n : nat) (s : string) : option (Z * string) :=
  match n with
  | O => Some (0, s)
  | S n' =>
      match s with
      | String c r =>
          match digit c with
          | Some d =>
              match digits n' r with
              | Some (v, r') => Some (d * 10 ^ Z.of_nat n' + v, r')
              | None => None
              end
          | None => None
          end
      | EmptyString => None
      end
  end.

(** The separator [sep] and two digits. *)
Definition sep_digits (sep : ascii) (s : string) : option (Z * string) :=
  match s with
  | String c r => if Ascii.eqb c sep then digits 2 r else None
  | EmptyString => None
  end.

(** [YYYY], [+YYYYYY] or [-YYYYYY]; the year [-000000] is not a year. *)
Definition year (s : string) : option (Z * string) :=
  match s with
  | String "+" r => digits 6 r
  | String "-" r =>
      match digits 6 r with
      | Some (y, r') => if y =? 0 then None else Some (- y, r')
      | None => None
      end
  | _ => digits 4 s
  end.

Record date_fields : Type := {
  df_year : Z;
  df_month : Z;   (* 1 to 12 *)
  df_day : Z      (* 1 to 31 *)
}.

Record time_fields : Type := {
  tf_hour : Z;
  tf_min : Z;
  tf_sec : Z;
  tf_ms : Z
}.

(** [YYYY], [YYYY-MM] or [YYYY-MM-DD] at the head of the string. *)
Definition date (s : string) : option (date_fields * string) :=
  match year s with
  | Some (y, r) =>
      match sep_digits "-" r with
      | Some (m, r1) =>
          match sep_digits "-" r1 with
          | Some (d, r2) =>
              Some ({| df_year := y; df_month := m; df_day := d |}, r2)
          | None => Some ({| df_year := y; df_month := m; df_day := 1 |}, r1)
          end
      | None => Some ({| df_year := y; df_month := 1; df_day := 1 |}, r)
      end
  | None => None
  end.

(** [HH:mm], [HH:mm:ss] or [HH:mm:ss.sss] at the head of the string. *)
Definition time (s : string) : option (time_fields * string) :=
  match digits 2 s with
  | Some (h, r) =>
      match sep_digits ":" r with
      | Some (mi, r1) =>
          match sep_digits ":" r1 with
          | Some (sec, r2) =>
              match r2 with
              | String "." r3 =>
                  match digits 3 r3 with
                  | Some (ms, r4) =>
                      Some ({| tf_hour := h; tf_min := mi;
                               tf_sec := sec; tf_ms := ms |}, r4)
                  | None => None
                  end
              | _ => Some ({| tf_hour := h; tf_min := mi;
                              tf_sec := sec; tf_ms := 0 |}, r2)
              end
          | None => Some ({| tf_hour := h; tf_min := mi;
                             tf_sec := 0; tf_ms := 0 |}, r1)
          end
      | None => None
      end
  | None => None
  end.

(** The UTC offset that ends the string, in milliseconds: [Z], [+HH:mm],
    [-HH:mm], or none ([Some None]: the time is local time). *)
Definition offset (s : string) : option (option Z) :=
  match s with
  | EmptyString => Some None
  | String "Z" EmptyString => Some (Some 0)
  | String c r =>
      if Ascii.eqb c "+" || Ascii.eqb c "-" then
        match digits 2 r with
        | Some (h, r1) =>
            match sep_digits ":" r1 with
            | Some (mi, EmptyString) =>
                if (h <=? 23) && (mi <=? 59) then
                  let ms := h * Time.msPerHour + mi * Time.msPerMinute in
                  Some (Some (if Ascii.eqb c "-" then - ms else ms))
                else None
            | _ => None
            end
        | None => None
        end
      else None
  end.

Definition legal_date (d : date_fields) : bool :=
  (1 <=? df_month d) && (df_month d <=? 12) &&
  (1 <=? df_day d) &&
  (df_day d <=? Time.DaysInMonth (df_year d) (df_month d - 1)).

Definition legal_time (t : time_fields) : bool :=
  ((tf_hour t <=? 23) && (tf_min t <=? 59) && (tf_sec t <=? 59)) ||
  ((tf_hour t =? 24) && (tf_min t =? 0) && (tf_sec t =? 0) && (tf_ms t =? 0)).

(** The instant a date and a time of day denote, as if read in UTC. *)
Definition utc_instant (d : date_fields) (t : time_fields) : Number :=
  Time.MakeDate
    (Time.MakeDay (Num (df_year d)) (Num (df_month d - 1)) (Num (df_day d)))
    (Time.MakeTime (Num (tf_hour t)) (Num (tf_min t))
                   (Num (tf_sec t)) (Num (tf_ms t))).

Definition midnight : time_fields :=
  {| tf_hour := 0; tf_min := 0; tf_sec := 0; tf_ms := 0 |}.

(** A string of the format: its time value.  [None] when the string is not
    of the format, has an element out of bounds, or is a date-time without
    offset (local time, whose conversion to UTC is the host's). *)
Definition iso (s : string) : option Number :=
  match date s with
  | Some (d, EmptyString) =>
      if legal_date d then Some (Time.TimeClip (utc_instant d midnight))
      else None
  | Some (d, String "T" r) =>
      match time r with
      | Some (t, r') =>
          match offset r' with
          | Some (Some off) =>
              if legal_date d && legal_time t then
                Some (Time.TimeClip (num_add (utc_instant d t) (Num (- off))))
              else None
          | _ => None
          end
      | None => None
      end
  | _ => None
  end.

End Parse.

(** [Date.parse(string)]. *)
Definition Date_parse (host : Host) (s : string) : Number :=
  match Parse.iso s with
  | Some tv => tv
  | None => parse_fallback host s
  end.

(** [MakeFullYear(year)]: the years 0 to 99 stand for 1900 to 1999. *)
Definition MakeFullYear (year : Number) : Number :=
  match year with
  | NaN => NaN
  | Num y => if (0 <=? y) && (y <=? 99) then Num (1900 + y) else Num y
  end.

(** [Date.UTC(year, month, date)]. *)
Definition Date_UTC (year month date : Number) : Number :=
  Time.TimeClip
    (Time.MakeDate
       (Time.MakeDay (MakeFullYear year) month date)
       (Time.MakeTime (Num 0) (Num 0) (Num 0) (Num 0))).

(** ** [Date] objects

    A [Date] object is a location of the heap; the heap maps it to its
    [[DateValue]] slot, a time value.  Computations thread the heap and
    may throw. *)

Definition loc : Type := positive.

Inductive exn : Type :=
| TypeError
| RangeError.

Inductive Result (A : Type) : Type :=
| Ok (a : A)
| Throw (e : exn).

Arguments Ok {A} a.
Arguments Throw {A} e.

Definition M (A : Type) : Type :=
  gmap loc Number -> Result A * gmap loc Number.

#[global] Instance M_ret : MRet M := fun A a h => (Ok a, h).

#[global] Instance M_bind : MBind M := fun A B f m h =>
  match m h with
  | (Ok a, h') => f a h'
  | (Throw e, h') => (Throw e, h')
  end.

Definition throw {A : Type} (e : exn) : M A := fun h => (Throw e, h).

(** A new object, at a location the heap does not use yet. *)
Definition alloc (tv : Number) : M loc := fun h =>
  let l := fresh (dom h) in (Ok l, <[l := tv]> h).

(** [thisTimeValue]: a TypeError when [this] is not a Date object. *)
Definition thisTimeValue (this : loc) : M Number := fun h =>
  match h !! this with
  | Some tv => (Ok tv, h)
  | None => (Throw TypeError, h)
  end.

Definition setDateValue (this : loc) (tv : Number) : M unit := fun h =>
  (Ok tt, <[this := tv]> h).

(** *** Constructors *)

(** [new Date()]: the current instant. *)
Definition new_Date_now (host : Host) : M loc :=
  alloc (Num (clock host)).

(** [new Date(value)] for a Date object [value]: a copy of its time value
    in a new object. *)
Definition new_Date_copy (value : loc) : M loc :=
  tv ← thisTimeValue value;
  alloc tv.

(** [new Date(value)] for a string [value]. *)
Definition new_Date_string (host : Host) (value : string) : M loc :=
  alloc (Date_parse host value).

(** [new Date(value)] for a Number [value]. *)
Definition new_Date_number (value : Number) : M loc :=
  alloc (Time.TimeClip value).

(** *** Fields of a time value *)

Definition field (f : Z -> Z) (tv : Number) : Number :=
  match tv with
  | NaN => NaN
  | Num t => Num (f t)
  end.

Definition UTCFullYear : Number -> Number := field Time.YearFromTime.
Definition UTCMonth : Number -> Number := field Time.MonthFromTime.
Definition UTCDate : Number -> Number := field Time.DateFromTime.

(** The time value [setUTCDate(date)] stores in an object whose time value
    is [tv]. *)
Definition with_UTCDate (tv date : Number) : Number :=
  match tv with
  | NaN => NaN
  | Num t =>
      Time.TimeClip
        (Time.MakeDate
           (Time.MakeDay (Num (Time.YearFromTime t))
                         (Num (Time.MonthFromTime t)) date)
           (Num (Time.TimeWithinDay t)))
  end.

(** The time value [setUTCMonth(month)] stores: the date is the one the
    object has. *)
Definition with_UTCMonth (tv month : Number) : Number :=
  match tv with
  | NaN => NaN
  | Num t =>
      Time.TimeClip
        (Time.MakeDate
           (Time.MakeDay (Num (Time.YearFromTime t)) month
                         (Num (Time.DateFromTime t)))
           (Num (Time.TimeWithinDay t)))
  end.

(** The time value [setUTCFullYear(year)] stores: month and date are the
    ones the object has, and an invalid date counts as the epoch. *)
Definition with_UTCFullYear (tv year : Number) : Number :=
  let t := match tv with NaN => 0 | Num t => t end in
  Time.TimeClip
    (Time.MakeDate
       (Time.MakeDay year (Num (Time.MonthFromTime t))
                     (Num (Time.DateFromTime t)))
       (Num (Time.TimeWithinDay t))).

(** *** Methods *)

Definition valueOf (this : loc) : M Number := thisTimeValue this.

Definition getUTCFullYear (this : loc) : M Number :=
  tv ← thisTimeValue this; mret (UTCFullYear tv).

Definition getUTCMonth (this : loc) : M Number :=
  tv ← thisTimeValue this; mret (UTCMonth tv).

Definition getUTCDate (this : loc) : M Number :=
  tv ← thisTimeValue this; mret (UTCDate tv).

Definition getFullYear (host : Host) (this : loc) : M Number :=
  tv ← thisTimeValue this;
  mret (field (fun t => Time.YearFromTime (LocalTime host t)) tv).

Definition getMonth (host : Host) (this : loc) : M Number :=
  tv ← thisTimeValue this;
  mret (field (fun t => Time.MonthFromTime (LocalTime host t)) tv).

Definition getDate (host : Host) (this : loc) : M Number :=
  tv ← thisTimeValue this;
  mret (field (fun t => Time.DateFromTime (LocalTime host t)) tv).

Definition setUTCDate (this : loc) (date : Number) : M Number :=
  tv ← thisTimeValue this;
  match tv with
  | NaN => mret NaN
  | Num _ =>
      let v := with_UTCDate tv date in
      _ ← setDateValue this v; mret v
  end.

Definition setUTCMonth (this : loc) (month : Number) : M Number :=
  tv ← thisTimeValue this;
  match tv with
  | NaN => mret NaN
  | Num _ =>
      let v := with_UTCMonth tv month in
      _ ← setDateValue this v; mret v
  end.

Definition setUTCFullYear (this : loc) (year : Number) : M Number :=
  tv ← thisTimeValue this;
  let v := with_UTCFullYear tv year in
  _ ← setDateValue this v; mret v.

(** *** Strings *)

(** [ToString] of a Number. *)
Definition Number_toString (n : Number) : string :=
  match n with
  | NaN => "NaN"
  | Num z => NilZero.string_of_int (Z.to_int z)
  end.

(** The English name of a month (0-based), as the locale data has it. *)
Definition monthName (m : Z) : string :=
  match m with
  | 0 => "January"
  | 1 => "February"
  | 2 => "March"
  | 3 => "April"
  | 4 => "May"
  | 5 => "June"
  | 6 => "July"
  | 7 => "August"
  | 8 => "September"
  | 9 => "October"
  | 10 => "November"
  | _ => "December"
  end.

(** [toLocaleDateString("en-GB", { month: "long", timeZone: "UTC" })]. *)
Definition toLocaleDateString_month_long_UTC (this : loc) : M string :=
  tv ← thisTimeValue this;
  mret (match tv with
        | NaN => "Invalid Date"
        | Num t => monthName (Time.MonthFromTime t)
        end).

(** [n] as a decimal numeral of at least [width] digits ([n] not
    negative). *)
Definition pad (width : nat) (n : Z) : string :=
  let s := NilZero.string_of_int (Z.to_int n) in
  String.concat EmptyString (repeat "0"%string (width - String.length s))
  +:+ s.

(** The year of an ISO string: four digits from 0 to 9999, otherwise a sign
    and six digits. *)
Definition isoYear (y : Z) : string :=
  if (0 <=? y) && (y <=? 9999) then pad 4 y
  else if y <? 0 then "-" +:+ pad 6 (- y)
  else "+" +:+ pad 6 y.

(** [toISOString()]: a RangeError on an invalid date. *)
Definition toISOString (this : loc) : M string :=
  tv ← thisTimeValue this;
  match tv with
  | NaN => throw RangeError
  | Num t =>
      let tod := Time.TimeWithinDay t in
      mret (isoYear (Time.YearFromTime t) +:+ "-" +:+
            pad 2 (Time.MonthFromTime t + 1) +:+ "-" +:+
            pad 2 (Time.DateFromTime t) +:+ "T" +:+
            pad 2 (tod / Time.msPerHour) +:+ ":" +:+
            pad 2 (tod / Time.msPerMinute mod 60) +:+ ":" +:+
            pad 2 (tod / Time.msPerSecond mod 60) +:+ "." +:+
            pad 3 (tod mod Time.msPerSecond) +:+ "Z")
  end.

(** ** The module [dates.mjs] *)

Definition addDays (date : loc) (days : Number) : M loc :=
  result ← new_Date_copy date;
  d ← getUTCDate result;
  _ ← setUTCDate result (num_add d days);
  mret result.

Definition addMonths (date : loc) (months : Number) : M loc :=
  result ← new_Date_copy date;
  m ← getUTCMonth result;
  _ ← setUTCMonth result (num_add m months);
  mret result.

Definition addYears (date : loc) (years : Number) : M loc :=
  result ← new_Date_copy date;
  y ← getUTCFullYear result;
  _ ← setUTCFullYear result (num_add y years);
  mret result.

Definition calculateRevisionDates (host : Host) (dateString : string)
  : M (list loc) :=
  startDate ← new_Date_string host (dateString +:+ "T00:00:00.000Z");
  week ← addDays startDate (Num 7);
  month1 ← addMonths startDate (Num 1);
  month3 ← addMonths startDate (Num 3);
  month6 ← addMonths startDate (Num 6);
  year1 ← addYears startDate (Num 1);
  mret [week; month1; month3; month6; year1].

Definition getOrdinalSuffix (num : Number) : string :=
  if num_ge num (Num 11) && num_le num (Num 13) then "th"
  else
    match num_rem num (Num 10) with
    | Num 1 => "st"
    | Num 2 => "nd"
    | Num 3 => "rd"
    | _ => "th"
    end.

Definition formatDate (date : loc) : M string :=
  day ← getUTCDate date;
  month ← toLocaleDateString_month_long_UTC date;
  year ← getUTCFullYear date;
  let ordinal := getOrdinalSuffix day in
  mret (Number_toString day +:+ ordinal +:+ " " +:+ month +:+ " " +:+
        Number_toString year).

Definition getTodayUTC (host : Host) : M loc :=
  now ← new_Date_now host;
  y ← getFullYear host now;
  m ← getMonth host now;
  d ← getDate host now;
  new_Date_number (Date_UTC y m d).

Definition isFutureDate (host : Host) (date : loc) : M bool :=
  today ← getTodayUTC host;
  a ← valueOf date;
  b ← valueOf today;
  mret (num_ge a b).

(** [s.split("T")[0]]: the part of [s] before its first [T]. *)
Fixpoint before_T (s : string) : string :=
  match s with
  | EmptyString => EmptyString
  | String c r => if Ascii.eqb c "T" then EmptyString else String c (before_T r)
  end.

Definition getTodayString (host : Host) : M string :=
  today ← new_Date_now host;
  iso ← toISOString today;
  mret (before_T iso).

(** ** Callers *)

(** The test suite: [calculateRevisionDates(s).map(formatDate)]. *)
Definition formattedDates (host : Host) (dateString : string)
  : M (list string) :=
  revisionDates ← calculateRevisionDates host dateString;
  mapM formatDate revisionDates.


(** A host for evaluating examples: the clock at the epoch, local time UTC,
    and a parser that knows the Date Time String Format only. *)
Definition strictHost : Host :=
  {| clock := 0; LocalTZA := fun _ => 0; parse_fallback := fun _ => NaN |}.

(** ** What the offset functions compute

    The time value of the object each function returns, as a function of
    the time value of its argument: the [get], the addition and the [set] of
    the function's second line. *)

Definition addDays_value (tv days : Number) : Number :=
  with_UTCDate tv (num_add (UTCDate tv) days).

Definition addMonths_value (tv months : Number) : Number :=
  with_UTCMonth tv (num_add (UTCMonth tv) months).

Definition addYears_value (tv years : Number) : Number :=
  with_UTCFullYear tv (num_add (UTCFullYear tv) years).

(** The string [formatDate] returns for a date of time value [tv]. *)
Definition formatDate_value (tv : Number) : string :=
  Number_toString (UTCDate tv) +:+ getOrdinalSuffix (UTCDate tv) +:+ " " +:+
  match tv with
  | NaN => "Invalid Date"
  | Num t => monthName (Time.MonthFromTime t)
  end +:+ " " +:+ Number_toString (UTCFullYear tv).

(** The time value of the date [getTodayUTC] returns. *)
Definition getTodayUTC_value (host : Host) : Number :=
  let lt := LocalTime host (clock host) in
  Time.TimeClip
    (Date_UTC (Num (Time.YearFromTime lt)) (Num (Time.MonthFromTime lt))
              (Num (Time.DateFromTime lt))).

(** ** Vocabulary of the specification *)

(** A start date [YYYY-MM-DD], as a date picker writes it ([m] from 1). *)
Definition isoDateString (y m d : Z) : string :=
  pad 4 y +:+ "-" +:+ pad 2 m +:+ "-" +:+ pad 2 d.

(** UTC midnight of the day [d] of month [m] (from 0) of year [y]. *)
Definition utcMidnight (y m d : Z) : Z := Time.MakeDayZ y m d * Time.msPerDay.



(** The ordinal rule in the specification's words: 11 to 13 take "th",
    otherwise the last digit decides. *)
Definition ordinalRule (day : Z) : string :=
  if (11 <=? day) && (day <=? 13) then "th"
  else if day mod 10 =? 1 then "st"
  else if day mod 10 =? 2 then "nd"
  else if day mod 10 =? 3 then "rd"
  else "th".

(** The calendar fields of a time value, read in UTC. *)
Definition utcFields (t : Z) : Z * Z * Z :=
  (Time.YearFromTime t, Time.MonthFromTime t, Time.DateFromTime t).

(** A run of [c] from the heap [h] returns a new object, other than
    [date], and leaves [date] and every other object of [h] as it was. *)
Definition returns_new_object (c : M loc) (date : loc) (h : gmap loc Number)
  : Prop :=
  exists l h',
    c h = (Ok l, h') /\ l <> date /\ h !! l = None /\ is_Some (h' !! l) /\
    h' !! date = h !! date /\
    forall l', is_Some (h !! l') -> h' !! l' = h !! l'.

(** A host for which parsing is the format's and local time is two hours
    ahead of UTC, late in the evening of 19 July 2026 UTC. *)
Definition eveningHost : Host :=
  {| clock := 1784502000000;
     LocalTZA := fun _ => 2 * Time.msPerHour;
     parse_fallback := fun _ => NaN |}.

(** A host whose clock stands at the first instant of the time-value
    range, local time one hour behind UTC. *)
Definition earliestHost : Host :=
  {| clock := - Time.maxTime;
     LocalTZA := fun _ => - Time.msPerHour;
     parse_fallback := fun _ => NaN |}.

(** A host whose clock stands in June of the year 50, local time UTC. *)
Definition year50Host : Host :=
  {| clock := -60574608000000;
     LocalTZA := fun _ => 0;
     parse_fallback := fun _ => NaN |}.

(** ** The application: form and agenda

    The parts of the page script that compute on dates and strings; the
    stored records come from the storage collaborator and are a parameter
    here. *)

(** [a < b] on Numbers: false as soon as one side is NaN. *)
Definition num_lt (a b : Number) : bool :=
  match a, b with
  | Num x, Num y => x <? y
  | _, _ => false
  end.

(** [a - b] on Numbers. *)
Definition num_sub (a b : Number) : Number :=
  match a, b with
  | Num x, Num y => Num (x - y)
  | _, _ => NaN
  end.

(** [s.replace(/c/g, by)] for a pattern of one character [c]: every
    occurrence of [c] becomes the string [by]. *)
Fixpoint replace_all (c : ascii) (by_ : string) (s : string) : string :=
  match s with
  | EmptyString => EmptyString
  | String x r =>
      if Ascii.eqb x c then by_ +:+ replace_all c by_ r
      else String x (replace_all c by_ r)
  end.

(** The double quote, character 34. *)
Definition dquote : ascii := "034"%char.

Definition escapeHtml (unsafe : string) : string :=
  replace_all "'" "&#039;"
    (replace_all dquote "&quot;"
       (replace_all ">" "&gt;"
          (replace_all "<" "&lt;"
             (replace_all "&" "&amp;" unsafe)))).

(** The check of the start date, in the form handler and in the change
    listener: the selected date is earlier than ten years before today. *)
Definition startDateTooOld (host : Host) (value : string) : M bool :=
  selectedDate ← new_Date_string host (value +:+ "T00:00:00.000Z");
  today ← getTodayUTC host;
  tenYearsAgo ← addYears today (Num (-10));
  a ← valueOf selectedDate;
  b ← valueOf tenYearsAgo;
  mret (num_lt a b).

(** A stored record: [{ topic, date, startDate }]. *)
Record AgendaItem : Type := {
  item_topic : string;
  item_date : string;       (* an ISO-8601 string *)
  item_startDate : string   (* YYYY-MM-DD *)
}.

(** The records the form handler stores for a topic: one for each revision
    date, with the date serialised by [toISOString]. *)
Definition agendaItems (host : Host) (topicName startDate : string)
  : M (list AgendaItem) :=
  revisionDates ← calculateRevisionDates host startDate;
  mapM (fun d =>
          iso ← toISOString d;
          mret {| item_topic := topicName; item_date := iso;
                  item_startDate := startDate |})
       revisionDates.

(** [array.filter(f)] for a callback that runs in the heap. *)
Fixpoint filterM {A : Type} (f : A -> M bool) (l : list A) : M (list A) :=
  match l with
  | [] => mret []
  | x :: r =>
      keep ← f x;
      r' ← filterM f r;
      mret (if keep : bool then x :: r' else r')
  end.

(** [x] put into a sorted list: after the elements the comparator puts
    before it, and before the first element that it does not follow.  A
    comparator result that is not positive (zero or NaN too) leaves [x],
    the earlier element, in front. *)
Fixpoint insertM {A : Type} (cmp : A -> A -> M Number) (x : A) (l : list A)
  : M (list A) :=
  match l with
  | [] => mret [x]
  | y :: r =>
      v ← cmp x y;
      if num_lt (Num 0) v then
        r' ← insertM cmp x r; mret (y :: r')
      else mret (x :: y :: r)
  end.

(** [array.sort(cmp)].  The algorithm is the implementation's; the sort is
    stable, so for a consistent comparator the result is the one of any
    stable sort, here by insertion. *)
Fixpoint sortM {A : Type} (cmp : A -> A -> M Number) (l : list A)
  : M (list A) :=
  match l with
  | [] => mret []
  | x :: r => r' ← sortM cmp r; insertM cmp x r'
  end.

(** The filter callback of the agenda:
    [item => isFutureDate(new Date(item.date))]. *)
Definition isFutureItem (host : Host) (item : AgendaItem) : M bool :=
  d ← new_Date_string host (item_date item);
  isFutureDate host d.

(** The sort callback of the agenda:
    [(a, b) => new Date(a.date) - new Date(b.date)]. *)
Definition compareItems (host : Host) (a b : AgendaItem) : M Number :=
  da ← new_Date_string host (item_date a);
  db ← new_Date_string host (item_date b);
  x ← valueOf da;
  y ← valueOf db;
  mret (num_sub x y).

(** The upcoming revisions of the agenda, in the order of display. *)
Definition futureRevisions (host : Host) (userData : list AgendaItem)
  : M (list AgendaItem) :=
  future ← filterM (isFutureItem host) userData;
  sortM (compareItems host) future.

(** The date of a record, as [new Date(item.date)] reads it. *)
Definition itemTime (host : Host) (item : AgendaItem) : Number :=
  Date_parse host (item_date item).

(** The order of the agenda: by time value, on valid dates. *)
Definition earlier (host : Host) (a b : AgendaItem) : Prop :=
  exists x y, itemTime host a = Num x /\ itemTime host b = Num y /\ x <= y.

Definition newline : string := String "010"%char EmptyString.

(** [s] between double quotes. *)
Definition quoted (s : string) : string :=
  String dquote (s +:+ String dquote EmptyString).

(** The template of a line of the agenda, around its two texts. *)
Definition agendaItemTemplate (dateText topicText : string) : string :=
  newline +:+ "      <div class=" +:+ quoted "agenda-item" +:+ ">" +:+
  newline +:+ "        <div class=" +:+ quoted "agenda-date" +:+ ">" +:+
  dateText +:+ "</div>" +:+
  newline +:+ "        <div class=" +:+ quoted "agenda-topic" +:+ ">" +:+
  topicText +:+ "</div>" +:+
  newline +:+ "      </div>" +:+
  newline +:+ "    ".

(** The callback that renders a record: the template with
    [formatDate(new Date(item.date))] and [escapeHtml(item.topic)]. *)
Definition agendaItemHTML (host : Host) (item : AgendaItem) : M string :=
  d ← new_Date_string host (item_date item);
  dateText ← formatDate d;
  mret (agendaItemTemplate dateText (escapeHtml (item_topic item))).

Definition noTopicsHTML : string :=
  "<div class=" +:+ quoted "no-agenda" +:+
  ">No topics to revise yet. Add a topic below to get started!</div>".

Definition noUpcomingHTML : string :=
  "<div class=" +:+ quoted "no-agenda" +:+
  ">No upcoming revisions. All topics are up to date!</div>".

(** [displayUserAgenda], as a function of the records the storage has for
    the user ([None] when it has nothing): the HTML it puts into the
    agenda. *)
Definition displayUserAgenda (host : Host)
    (userData : option (list AgendaItem)) : M string :=
  match userData with
  | None | Some [] => mret noTopicsHTML
  | Some data =>
      future ← futureRevisions host data;
      match future with
      | [] => mret noUpcomingHTML
      | _ :: _ =>
          lines ← mapM (agendaItemHTML host) future;
          mret (String.concat EmptyString lines)
      end
  end.

(** A start date with the year written as [toISOString] writes it. *)
Definition isoDate (y m d : Z) : string :=
  isoYear y +:+ "-" +:+ pad 2 m +:+ "-" +:+ pad 2 d.

(** A run of [c] from the heap [h] returns a new object whose time value
    is [v]. *)
Definition returns_date (c : M loc) (h : gmap loc Number) (v : Number)
  : Prop :=
  exists l h', c h = (Ok l, h') /\ h !! l = None /\ h' !! l = Some v.

(** A run of [c] returns [a], whatever the heap, and leaves the objects of
    the heap as they were. *)
Definition yields {A : Type} (c : M A) (a : A) : Prop :=
  forall h, exists h',
    c h = (Ok a, h') /\ forall l, is_Some (h !! l) -> h' !! l = h !! l.

(** [P] on the [n] integers from [lo] on. *)
Fixpoint forall_range (P : Z -> bool) (lo : Z) (n : nat) : bool :=
  match n with
  | O => true
  | S n' => P lo && forall_range P (lo + 1) n'
  end.

(** A number of days, in milliseconds. *)
Definition days (n : Z) : Z := n * Time.msPerDay.

(** What [escapeHtml] makes of one character. *)
Definition escapeChar (c : ascii) : string :=
  if Ascii.eqb c "&" then "&amp;"
  else if Ascii.eqb c "<" then "&lt;"
  else if Ascii.eqb c ">" then "&gt;"
  else if Ascii.eqb c dquote then "&quot;"
  else if Ascii.eqb c "'" then "&#039;"
  else String c EmptyString.

(** The characters [escapeHtml] rewrites. *)
Definition isHtmlSpecial (c : ascii) : bool :=
  Ascii.eqb c "&" || Ascii.eqb c "<" || Ascii.eqb c ">" ||
  Ascii.eqb c dquote || Ascii.eqb c "'".

(** The strings [f] makes of the characters of [s], one after the other. *)
Fixpoint flat_map_string (f : ascii -> string) (s : string) : string :=
  match s with
  | EmptyString => EmptyString
  | String c r => f c +:+ flat_map_string f r
  end.

(** * Properties *)

Ltac dlia := Z.div_mod_to_equations; lia.

(** ** The calendar *)

Module TimeFacts.
Import Time.

Lemma DaysInYear_cases y : DaysInYear y = 365 \/ DaysInYear y = 366.
Proof. unfold DaysInYear. repeat case_match; auto. Qed.

Lemma DayFromYear_succ y : DayFromYear (y + 1) = DayFromYear y + DaysInYear y.
Proof.
  unfold DayFromYear, DaysInYear.
  destruct (Z.eqb_spec (y mod 4) 0), (Z.eqb_spec (y mod 100) 0),
    (Z.eqb_spec (y mod 400) 0); simpl; dlia.
Qed.

Lemma DayFromYear_lt y1 y2 : y1 < y2 -> DayFromYear y1 < DayFromYear y2.
Proof. unfold DayFromYear. dlia. Qed.

Lemma DayFromYear_le y1 y2 : y1 <= y2 -> DayFromYear y1 <= DayFromYear y2.
Proof.
  intros H. destruct (Z.eq_dec y1 y2) as [->|]; [lia|].
  apply Z.lt_le_incl, DayFromYear_lt. lia.
Qed.

Lemma YearFromDay_spec d :
  DayFromYear (YearFromDay d) <= d < DayFromYear (YearFromDay d + 1).
Proof.
  unfold YearFromDay.
  set (y0 := 1970 + d * 400 / 146097).
  assert (H1 : DayFromYear (y0 - 1) <= d) by (unfold DayFromYear, y0; dlia).
  assert (H2 : d < DayFromYear (y0 + 2)) by (unfold DayFromYear, y0; dlia).
  destruct (Z.leb_spec (DayFromYear (y0 + 1)) d).
  - replace (y0 + 1 + 1) with (y0 + 2) by lia. lia.
  - destruct (Z.leb_spec (DayFromYear y0) d).
    + lia.
    + replace (y0 - 1 + 1) with y0 by lia. lia.
Qed.

Lemma YearFromDay_unique d y :
  DayFromYear y <= d < DayFromYear (y + 1) -> YearFromDay d = y.
Proof.
  intros H. pose proof (YearFromDay_spec d) as S.
  destruct (Z.lt_trichotomy (YearFromDay d) y) as [L|[E|G]]; [|done|].
  - pose proof (DayFromYear_le (YearFromDay d + 1) y). lia.
  - pose proof (DayFromYear_le (y + 1) (YearFromDay d)). lia.
Qed.

(** [YearFromTime t] is the largest year that starts at or before [t]. *)
Lemma YearFromTime_spec t :
  TimeFromYear (YearFromTime t) <= t /\
  forall y, TimeFromYear y <= t -> y <= YearFromTime t.
Proof.
  unfold TimeFromYear, YearFromTime.
  pose proof (YearFromDay_spec (Day t)) as [Hlo Hhi].
  unfold Day, msPerDay in *. split.
  - dlia.
  - intros y Hy.
    destruct (Z.le_gt_cases y (YearFromDay (t / 86400000))) as [|G]; [done|].
    pose proof (DayFromYear_le (YearFromDay (t / 86400000) + 1) y).
    dlia.
Qed.

Lemma DayWithinYear_bounds t :
  0 <= DayWithinYear t < DaysInYear (YearFromTime t).
Proof.
  unfold DayWithinYear, YearFromTime.
  pose proof (YearFromDay_spec (Day t)).
  pose proof (DayFromYear_succ (YearFromDay (Day t))). lia.
Qed.

Lemma Day_MakeDate d tod :
  0 <= tod < msPerDay -> Day (d * msPerDay + tod) = d.
Proof. unfold Day, msPerDay. intros. dlia. Qed.

Lemma TimeWithinDay_MakeDate d tod :
  0 <= tod < msPerDay -> TimeWithinDay (d * msPerDay + tod) = tod.
Proof. unfold TimeWithinDay, msPerDay. intros. dlia. Qed.

Lemma TimeWithinDay_bounds t : 0 <= TimeWithinDay t < msPerDay.
Proof. unfold TimeWithinDay, msPerDay. dlia. Qed.

Lemma Day_TimeWithinDay t : t = Day t * msPerDay + TimeWithinDay t.
Proof. unfold Day, TimeWithinDay, msPerDay. dlia. Qed.

Lemma month_cases m :
  0 <= m <= 11 ->
  m = 0 \/ m = 1 \/ m = 2 \/ m = 3 \/ m = 4 \/ m = 5 \/
  m = 6 \/ m = 7 \/ m = 8 \/ m = 9 \/ m = 10 \/ m = 11.
Proof. lia. Qed.

Ltac month_split m H :=
  destruct (month_cases m H) as [->|[->|[->|[->|[->|[->|[->|[->|[->|[->|[->| ->]]]]]]]]]]].

Ltac leap_split y :=
  let E := fresh "E" in
  destruct (DaysInYear_cases y) as [E|E]; rewrite ?E in *.

Lemma DaysInMonth_bounds y m : 28 <= DaysInMonth y m <= 31.
Proof. unfold DaysInMonth. repeat case_match; lia. Qed.

Lemma DaysBeforeMonth_succ y m :
  0 <= m <= 10 ->
  DaysBeforeMonth y (m + 1) = DaysBeforeMonth y m + DaysInMonth y m.
Proof.
  intros H. assert (H' : 0 <= m <= 11) by lia.
  month_split m H'; try lia; unfold DaysBeforeMonth, DaysInMonth;
  leap_split y; simpl; lia.
Qed.

Lemma DaysBeforeMonth_december y :
  DaysBeforeMonth y 11 + DaysInMonth y 11 = DaysInYear y.
Proof. unfold DaysBeforeMonth, DaysInMonth. leap_split y; simpl; lia. Qed.

Lemma fields_of_day t y m dt :
  0 <= m <= 11 -> 1 <= dt <= DaysInMonth y m ->
  Day t = DayFromYear y + DaysBeforeMonth y m + dt - 1 ->
  YearFromTime t = y /\ MonthFromTime t = m /\ DateFromTime t = dt.
Proof.
  intros Hm Hdt Hday.
  assert (HY : YearFromTime t = y).
  { unfold YearFromTime. apply YearFromDay_unique.
    rewrite DayFromYear_succ, Hday.
    revert Hdt. unfold DaysBeforeMonth, DaysInMonth.
    month_split m Hm; leap_split y; simpl; lia. }
  assert (HM : MonthFromTime t = m).
  { unfold MonthFromTime, DayWithinYear, InLeapYear. rewrite HY, Hday.
    revert Hdt. unfold DaysBeforeMonth, DaysInMonth.
    month_split m Hm; leap_split y; simpl; intros;
      repeat (case_match; try lia). }
  split; [done|]. split; [done|].
  unfold DateFromTime. rewrite HM.
  unfold DayWithinYear, InLeapYear. rewrite HY, Hday.
  clear HM. revert Hdt. unfold DaysBeforeMonth, DaysInMonth.
  month_split m Hm; leap_split y; simpl; lia.
Qed.

Lemma MonthFromTime_range t : 0 <= MonthFromTime t <= 11.
Proof. unfold MonthFromTime. repeat case_match; lia. Qed.

Lemma day_of_fields t :
  Day t = DayFromYear (YearFromTime t)
          + DaysBeforeMonth (YearFromTime t) (MonthFromTime t)
          + DateFromTime t - 1.
Proof.
  unfold DateFromTime, DaysBeforeMonth.
  pose proof (MonthFromTime_range t) as Hm.
  assert (HL : InLeapYear t = if DaysInYear (YearFromTime t) =? 366 then 1 else 0) by done.
  rewrite <- HL.
  assert (HD : DayWithinYear t = Day t - DayFromYear (YearFromTime t)) by done.
  destruct (month_cases _ Hm) as [E|[E|[E|[E|[E|[E|[E|[E|[E|[E|[E|E]]]]]]]]]]];
    rewrite E; lia.
Qed.

Lemma DateFromTime_range t :
  1 <= DateFromTime t <= DaysInMonth (YearFromTime t) (MonthFromTime t).
Proof.
  pose proof (DayWithinYear_bounds t) as Hd.
  unfold DateFromTime, DaysInMonth.
  assert (HL : InLeapYear t = if DaysInYear (YearFromTime t) =? 366 then 1 else 0) by done.
  revert Hd HL. unfold MonthFromTime.
  generalize (DayWithinYear t) (InLeapYear t). intros d leap Hd HL.
  leap_split (YearFromTime t); simpl in HL; subst leap;
    repeat (case_match; try lia).
Qed.

(** The fields of a date give its day number back. *)
Lemma MakeDayZ_fields t n :
  MakeDayZ (YearFromTime t) (MonthFromTime t) (DateFromTime t + n) = Day t + n.
Proof.
  unfold MakeDayZ. pose proof (MonthFromTime_range t) as Hm.
  replace (MonthFromTime t / 12) with 0 by dlia.
  replace (MonthFromTime t mod 12) with (MonthFromTime t) by dlia.
  rewrite Z.add_0_r. pose proof (day_of_fields t). lia.
Qed.

(** A day that the month has: the date made of it has these fields. *)
Lemma fields_of_MakeDayZ y m dt tod :
  1 <= dt <= DaysInMonth (y + m / 12) (m mod 12) ->
  0 <= tod < msPerDay ->
  utcFields (MakeDayZ y m dt * msPerDay + tod) = (y + m / 12, m mod 12, dt).
Proof.
  intros Hdt Htod. unfold utcFields.
  destruct (fields_of_day (MakeDayZ y m dt * msPerDay + tod)
              (y + m / 12) (m mod 12) dt) as (-> & -> & ->);
    [dlia | done | | done].
  rewrite Day_MakeDate by done. reflexivity.
Qed.

(** A day past the end of the month is a day of the next month. *)
Lemma MakeDayZ_overflow y m dt :
  MakeDayZ y m dt =
  MakeDayZ y (m + 1) (dt - DaysInMonth (y + m / 12) (m mod 12)).
Proof.
  unfold MakeDayZ.
  destruct (Z.eq_dec (m mod 12) 11) as [E|NE].
  - replace ((m + 1) / 12) with (m / 12 + 1) by dlia.
    replace ((m + 1) mod 12) with 0 by dlia.
    rewrite E, Z.add_assoc, DayFromYear_succ.
    pose proof (DaysBeforeMonth_december (y + m / 12)).
    change (DaysBeforeMonth (y + m / 12 + 1) 0) with 0. lia.
  - replace ((m + 1) / 12) with (m / 12) by dlia.
    replace ((m + 1) mod 12) with (m mod 12 + 1) by dlia.
    rewrite DaysBeforeMonth_succ by dlia. lia.
Qed.

Lemma TimeClip_in_range t : in_range t -> TimeClip (Num t) = Num t.
Proof.
  intros [Hlo Hhi]. unfold TimeClip.
  destruct (Z.ltb_spec maxTime (Z.abs t)); [lia | done].
Qed.

Lemma TimeClip_out_of_range t : ~ in_range t -> TimeClip (Num t) = NaN.
Proof.
  unfold in_range, TimeClip. intros H.
  destruct (Z.ltb_spec maxTime (Z.abs t)); [done | lia].
Qed.

(** Years of five digits are well inside the time-value range. *)
Lemma MakeDayZ_in_range y m dt tod :
  -100000 <= y <= 100000 -> -1000 <= m <= 1000 -> -1000 <= dt <= 1000 ->
  0 <= tod < msPerDay ->
  TimeClip (Num (MakeDayZ y m dt * msPerDay + tod)) =
  Num (MakeDayZ y m dt * msPerDay + tod).
Proof.
  intros Hy Hm Hd Ht. unfold TimeClip.
  destruct (Z.ltb_spec maxTime (Z.abs (MakeDayZ y m dt * msPerDay + tod)))
    as [H|]; [|done].
  exfalso. revert H. unfold MakeDayZ.
  assert (0 <= DaysBeforeMonth (y + m / 12) (m mod 12) <= 335).
  { unfold DaysBeforeMonth. repeat case_match; lia. }
  assert (-100100 <= y + m / 12 <= 100100) by dlia.
  generalize dependent (DaysBeforeMonth (y + m / 12) (m mod 12)).
  generalize dependent (y + m / 12). intros ym Hym dbm Hdbm.
  unfold DayFromYear, maxTime, msPerDay in *. dlia.
Qed.

End TimeFacts.

Import Time TimeFacts.

(** ** Running the methods and the module's functions *)

Section Runs.
Implicit Types (h : gmap loc Number) (l date : loc) (tv : Number).

Lemma bind_ok {A B} (m : M A) (f : A -> M B) h a h' :
  m h = (Ok a, h') -> (m ≫= f) h = f a h'.
Proof. intros E. unfold mbind, M_bind. by rewrite E. Qed.


Lemma fresh_None h : h !! fresh (dom h) = None.
Proof. apply not_elem_of_dom, is_fresh. Qed.

Lemma thisTimeValue_ok h l tv :
  h !! l = Some tv -> thisTimeValue l h = (Ok tv, h).
Proof. intros E. unfold thisTimeValue. by rewrite E. Qed.

Lemma new_Date_copy_ok h l tv :
  h !! l = Some tv ->
  new_Date_copy l h = (Ok (fresh (dom h)), <[fresh (dom h) := tv]> h).
Proof.
  intros E. unfold new_Date_copy.
  erewrite bind_ok by (by apply thisTimeValue_ok). reflexivity.
Qed.

Lemma getter_ok {A} (f : Number -> A) h l tv :
  h !! l = Some tv ->
  (tv ← thisTimeValue l; mret (f tv)) h = (Ok (f tv), h).
Proof.
  intros E. erewrite bind_ok by (by apply thisTimeValue_ok). reflexivity.
Qed.

Lemma setUTCDate_ok h l tv dt :
  h !! l = Some tv ->
  setUTCDate l dt h = (Ok (with_UTCDate tv dt), <[l := with_UTCDate tv dt]> h).
Proof.
  intros E. unfold setUTCDate.
  erewrite bind_ok by (by apply thisTimeValue_ok).
  destruct tv; [|reflexivity].
  simpl. by rewrite insert_id.
Qed.

Lemma setUTCMonth_ok h l tv m :
  h !! l = Some tv ->
  setUTCMonth l m h = (Ok (with_UTCMonth tv m), <[l := with_UTCMonth tv m]> h).
Proof.
  intros E. unfold setUTCMonth.
  erewrite bind_ok by (by apply thisTimeValue_ok).
  destruct tv; [|reflexivity].
  simpl. by rewrite insert_id.
Qed.

Lemma setUTCFullYear_ok h l tv y :
  h !! l = Some tv ->
  setUTCFullYear l y h =
  (Ok (with_UTCFullYear tv y), <[l := with_UTCFullYear tv y]> h).
Proof.
  intros E. unfold setUTCFullYear.
  erewrite bind_ok by (by apply thisTimeValue_ok). reflexivity.
Qed.

Lemma addDays_run h date tv days :
  h !! date = Some tv ->
  addDays date days h =
  (Ok (fresh (dom h)), <[fresh (dom h) := addDays_value tv days]> h).
Proof.
  intros E. unfold addDays.
  erewrite bind_ok by (by apply new_Date_copy_ok).
  unfold getUTCDate.
  erewrite bind_ok by (apply getter_ok, lookup_insert_eq).
  erewrite bind_ok by (apply setUTCDate_ok, lookup_insert_eq).
  by rewrite insert_insert_eq.
Qed.

Lemma addMonths_run h date tv months :
  h !! date = Some tv ->
  addMonths date months h =
  (Ok (fresh (dom h)), <[fresh (dom h) := addMonths_value tv months]> h).
Proof.
  intros E. unfold addMonths.
  erewrite bind_ok by (by apply new_Date_copy_ok).
  unfold getUTCMonth.
  erewrite bind_ok by (apply getter_ok, lookup_insert_eq).
  erewrite bind_ok by (apply setUTCMonth_ok, lookup_insert_eq).
  by rewrite insert_insert_eq.
Qed.

Lemma addYears_run h date tv years :
  h !! date = Some tv ->
  addYears date years h =
  (Ok (fresh (dom h)), <[fresh (dom h) := addYears_value tv years]> h).
Proof.
  intros E. unfold addYears.
  erewrite bind_ok by (by apply new_Date_copy_ok).
  unfold getUTCFullYear.
  erewrite bind_ok by (apply getter_ok, lookup_insert_eq).
  erewrite bind_ok by (apply setUTCFullYear_ok, lookup_insert_eq).
  by rewrite insert_insert_eq.
Qed.

Lemma formatDate_run h date tv :
  h !! date = Some tv -> formatDate date h = (Ok (formatDate_value tv), h).
Proof.
  intros E. unfold formatDate, getUTCDate, getUTCFullYear,
    toLocaleDateString_month_long_UTC.
  erewrite bind_ok by (by apply getter_ok).
  erewrite bind_ok by (by apply getter_ok).
  erewrite bind_ok by (by apply getter_ok).
  reflexivity.
Qed.

Lemma lookup_alloc h l tv v :
  h !! l = Some tv -> <[fresh (dom h) := v]> h !! l = Some tv.
Proof.
  intros E. rewrite lookup_insert_ne; [done|].
  intros <-. rewrite fresh_None in E. done.
Qed.

Lemma lookup_alloc_old h l v :
  is_Some (h !! l) -> <[fresh (dom h) := v]> h !! l = h !! l.
Proof. intros [tv E]. rewrite E. by apply lookup_alloc. Qed.

(** The dates of a schedule: five new objects, holding the five offsets of
    the parsed start date; the objects of the heap are as they were. *)
Lemma calculateRevisionDates_run host s h :
  let tv := Date_parse host (s +:+ "T00:00:00.000Z") in
  exists l1 l2 l3 l4 l5 h',
    calculateRevisionDates host s h = (Ok [l1; l2; l3; l4; l5], h') /\
    NoDup [l1; l2; l3; l4; l5] /\
    Forall (fun l => h !! l = None) [l1; l2; l3; l4; l5] /\
    h' !! l1 = Some (addDays_value tv (Num 7)) /\
    h' !! l2 = Some (addMonths_value tv (Num 1)) /\
    h' !! l3 = Some (addMonths_value tv (Num 3)) /\
    h' !! l4 = Some (addMonths_value tv (Num 6)) /\
    h' !! l5 = Some (addYears_value tv (Num 1)) /\
    (forall l, is_Some (h !! l) -> h' !! l = h !! l).
Proof.
  intros tv. unfold calculateRevisionDates, new_Date_string.
  set (l0 := fresh (dom h)). set (h0 := <[l0 := tv]> h).
  assert (E0 : h0 !! l0 = Some tv) by apply lookup_insert_eq.
  erewrite (bind_ok (alloc tv)) by reflexivity. fold l0 h0.
  erewrite bind_ok by (by apply addDays_run).
  set (l1 := fresh (dom h0)). set (h1 := <[l1 := _]> h0).
  assert (E1 : h1 !! l0 = Some tv) by (by apply lookup_alloc).
  erewrite bind_ok by (by apply addMonths_run).
  set (l2 := fresh (dom h1)). set (h2 := <[l2 := _]> h1).
  assert (E2 : h2 !! l0 = Some tv) by (by apply lookup_alloc).
  erewrite bind_ok by (by apply addMonths_run).
  set (l3 := fresh (dom h2)). set (h3 := <[l3 := _]> h2).
  assert (E3 : h3 !! l0 = Some tv) by (by apply lookup_alloc).
  erewrite bind_ok by (by apply addMonths_run).
  set (l4 := fresh (dom h3)). set (h4 := <[l4 := _]> h3).
  assert (E4 : h4 !! l0 = Some tv) by (by apply lookup_alloc).
  erewrite bind_ok by (by apply addYears_run).
  set (l5 := fresh (dom h4)). set (h5 := <[l5 := _]> h4).
  exists l1, l2, l3, l4, l5, h5.
  pose proof (fresh_None h) as F0. fold l0 in F0.
  pose proof (fresh_None h0) as F1. fold l1 in F1.
  pose proof (fresh_None h1) as F2. fold l2 in F2.
  pose proof (fresh_None h2) as F3. fold l3 in F3.
  pose proof (fresh_None h3) as F4. fold l4 in F4.
  pose proof (fresh_None h4) as F5. fold l5 in F5.
  clearbody l0 l1 l2 l3 l4 l5.
  unfold h4 in F5. unfold h3 in F4, F5. unfold h2 in F3, F4, F5.
  unfold h1 in F2, F3, F4, F5. unfold h0 in F1, F2, F3, F4, F5.
  repeat match goal with
         | H : <[_:=_]> _ !! _ = None |- _ => apply lookup_insert_None in H
         | H : _ /\ _ |- _ => destruct H
         end.
  split; [reflexivity|].
  split.
  { repeat (apply NoDup_cons; split); [..|apply NoDup_nil_2];
      rewrite ?elem_of_cons, ?elem_of_nil; intuition congruence. }
  split.
  { by repeat (apply Forall_cons; split). }
  subst h5 h4 h3 h2 h1 h0.
  repeat split;
    [rewrite ?lookup_insert_ne by congruence; apply lookup_insert_eq..|].
  intros l [v Hl].
  rewrite !lookup_insert_ne; [done|congruence..].
Qed.

End Runs.

(** ** Parsing a start date *)

Module ParseFacts.
Import Parse.

Lemma append_nil (s : string) : EmptyString +:+ s = s.
Proof. reflexivity. Qed.

Lemma append_cons c (a b : string) : String c a +:+ b = String c (a +:+ b).
Proof. reflexivity. Qed.

Lemma append_assoc (a b c : string) : (a +:+ b) +:+ c = a +:+ (b +:+ c).
Proof.
  induction a as [|x a IH]; [done|].
  rewrite !append_cons. by f_equal.
Qed.

Lemma length_append (a b : string) :
  String.length (a +:+ b) = (String.length a + String.length b)%nat.
Proof.
  induction a as [|c a IH]; [reflexivity|].
  rewrite append_cons. cbn [String.length]. by rewrite IH.
Qed.


Lemma digits_app n s v r :
  digits n s = Some (v, EmptyString) -> digits n (s +:+ r) = Some (v, r).
Proof.
  revert s v. induction n as [|n IH]; intros s v; simpl.
  - intros [= <- ->]. reflexivity.
  - destruct s as [|c s]; [done|]. rewrite append_cons.
    destruct (digit c) as [dv|]; [|done].
    destruct (digits n s) as [[w r']|] eqn:E; [|done].
    intros [= <- ->]. by rewrite (IH _ _ E).
Qed.

Lemma digit_not_sign c : is_Some (digit c) -> c <> "+"%char /\ c <> "-"%char.
Proof. intros [v E]. split; intros ->; vm_compute in E; done. Qed.

Lemma year_digits s :
  is_Some (digits 4 s) -> year s = digits 4 s.
Proof.
  intros [v E]. destruct s as [|c s]; [done|].
  assert (is_Some (digit c)) as H.
  { simpl in E. destruct (digit c); [eauto|done]. }
  apply digit_not_sign in H as [H1 H2].
  unfold year.
  destruct c as [[] [] [] [] [] [] [] []]; try reflexivity; congruence.
Qed.

Lemma digits_pad4 y : 0 <= y <= 9999 -> digits 4 (pad 4 y) = Some (y, EmptyString).
Proof.
  intros H.
  assert (A : Forall (fun k => digits 4 (pad 4 k) = Some (k, EmptyString)) (seqZ 0 10000)).
  { apply (bool_decide_unpack _). vm_compute. exact I. }
  rewrite Forall_forall in A. apply A, elem_of_seqZ. lia.
Qed.

Lemma digits_pad2 n : 0 <= n <= 99 -> digits 2 (pad 2 n) = Some (n, EmptyString).
Proof.
  intros H.
  assert (A : Forall (fun k => digits 2 (pad 2 k) = Some (k, EmptyString)) (seqZ 0 100)).
  { apply (bool_decide_unpack _). vm_compute. exact I. }
  rewrite Forall_forall in A. apply A, elem_of_seqZ. lia.
Qed.



Lemma date_isoDateString y m d r :
  0 <= y <= 9999 -> 0 <= m <= 99 -> 0 <= d <= 99 ->
  date (isoDateString y m d +:+ String "T" r) =
  Some ({| df_year := y; df_month := m; df_day := d |}, String "T" r).
Proof.
  intros Hy Hm Hd. unfold isoDateString, date.
  rewrite !append_assoc.
  rewrite year_digits; rewrite (digits_app _ _ _ _ (digits_pad4 y Hy)); [|eauto].
  rewrite ?append_cons, ?append_nil. cbn [sep_digits Ascii.eqb Bool.eqb].
  rewrite (digits_app _ _ _ _ (digits_pad2 m Hm)).
  rewrite ?append_cons, ?append_nil. cbn [sep_digits Ascii.eqb Bool.eqb].
  rewrite (digits_app _ _ _ _ (digits_pad2 d Hd)).
  reflexivity.
Qed.

Lemma time_midnight_Z : time "00:00:00.000Z" = Some (midnight, "Z"%string).
Proof. reflexivity. Qed.

(** A start date of the form parses to UTC midnight of its day. *)
Lemma Date_parse_isoDateString host y m d :
  0 <= y <= 9999 -> 1 <= m <= 12 -> 1 <= d <= DaysInMonth y (m - 1) ->
  Date_parse host (isoDateString y m d +:+ "T00:00:00.000Z") =
  Num (utcMidnight y (m - 1) d).
Proof.
  intros Hy Hm Hd. pose proof (DaysInMonth_bounds y (m - 1)).
  unfold Date_parse, iso.
  rewrite (date_isoDateString y m d "00:00:00.000Z") by lia.
  rewrite time_midnight_Z. change (offset "Z") with (Some (Some 0)).
  replace (legal_date _) with true.
  2:{ symmetry. unfold legal_date. cbn [df_year df_month df_day].
      repeat (apply andb_true_intro; split); apply Z.leb_le; lia. }
  change (legal_time midnight) with true. cbn [andb].
  unfold utc_instant, midnight, MakeDay, MakeTime, MakeDate, num_add,
    utcMidnight.
  cbn [df_year df_month df_day tf_hour tf_min tf_sec tf_ms].
  pose proof (MakeDayZ_in_range y (m - 1) d 0) as R.
  match goal with
  | |- TimeClip (Num ?a) = _ =>
      replace a with (MakeDayZ y (m - 1) d * msPerDay + 0) by lia
  end.
  rewrite R by (unfold msPerDay; lia). f_equal. lia.
Qed.

End ParseFacts.

(** ** The offsets as arithmetic *)

Section Values.
Implicit Types (t n : Z).

Lemma addDays_value_Num t n :
  addDays_value (Num t) (Num n) = TimeClip (Num (t + n * msPerDay)).
Proof.
  unfold addDays_value, with_UTCDate, UTCDate, field, num_add, MakeDay,
    MakeDate.
  rewrite MakeDayZ_fields. do 2 f_equal.
  pose proof (Day_TimeWithinDay t). lia.
Qed.

Lemma addMonths_value_Num t n :
  addMonths_value (Num t) (Num n) =
  TimeClip (Num (MakeDayZ (YearFromTime t) (MonthFromTime t + n)
                          (DateFromTime t) * msPerDay + TimeWithinDay t)).
Proof. reflexivity. Qed.

Lemma addYears_value_Num t n :
  addYears_value (Num t) (Num n) =
  TimeClip (Num (MakeDayZ (YearFromTime t + n) (MonthFromTime t)
                          (DateFromTime t) * msPerDay + TimeWithinDay t)).
Proof. reflexivity. Qed.




(** The fields of a date made from a day of the month that may lie past
    the end of the month, by up to a month's length. *)
Lemma fields_of_MakeDayZ_overflow y m dt tod :
  let y' := y + m / 12 in
  let m' := m mod 12 in
  DaysInMonth y' m' < dt <= DaysInMonth y' m' + 28 ->
  0 <= tod < msPerDay ->
  utcFields (MakeDayZ y m dt * msPerDay + tod) =
  (y' + (m' + 1) / 12, (m' + 1) mod 12, dt - DaysInMonth y' m').
Proof.
  intros y' m' Hdt Htod.
  rewrite MakeDayZ_overflow. fold y' m'.
  pose proof (DaysInMonth_bounds (y + (m + 1) / 12) ((m + 1) mod 12)).
  rewrite fields_of_MakeDayZ by (done || lia).
  subst y' m'. rewrite !pair_equal_spec. repeat split; dlia.
Qed.

End Values.

Section Claims.
Implicit Types (h : gmap loc Number) (date : loc) (tv : Number) (host : Host).

Lemma returns_new_object_alloc (c : M loc) date h tv v :
  h !! date = Some tv ->
  c h = (Ok (fresh (dom h)), <[fresh (dom h) := v]> h) ->
  returns_new_object c date h.
Proof.
  intros E R. exists (fresh (dom h)), (<[fresh (dom h) := v]> h).
  pose proof (fresh_None h) as F.
  split; [done|]. split; [congruence|]. split; [done|].
  split; [rewrite lookup_insert_eq; eauto|].
  split; [rewrite E; by apply lookup_alloc|].
  intros l' Hl'. by apply lookup_alloc_old.
Qed.

(** C8. [addDays], [addMonths] and [addYears] return a new object and
    leave every field of their argument, and of any other object, as it
    was; [formatDate] leaves the heap as it was, and a second call on the
    same date returns the same string. *)
Theorem offsets_and_formatDate_leave_input h date tv n :
  h !! date = Some tv ->
  returns_new_object (addDays date n) date h /\
  returns_new_object (addMonths date n) date h /\
  returns_new_object (addYears date n) date h /\
  exists s,
    formatDate date h = (Ok s, h) /\
    (s1 ← formatDate date; s2 ← formatDate date; mret (s1, s2)) h =
    (Ok (s, s), h).
Proof.
  intros E. repeat split.
  - eapply returns_new_object_alloc; [done|]. by apply addDays_run.
  - eapply returns_new_object_alloc; [done|]. by apply addMonths_run.
  - eapply returns_new_object_alloc; [done|]. by apply addYears_run.
  - exists (formatDate_value tv). split; [by apply formatDate_run|].
    erewrite bind_ok by (by apply formatDate_run).
    erewrite bind_ok by (by apply formatDate_run). reflexivity.
Qed.

Lemma offsets_and_formatDate_leave_input_witness :
  ({[1%positive := Num 0]} : gmap loc Number) !! 1%positive = Some (Num 0) /\
  returns_new_object (addDays 1%positive (Num 7)) 1%positive
                     {[1%positive := Num 0]}.
Proof.
  split; [reflexivity|].
  apply (offsets_and_formatDate_leave_input
           {[1%positive := Num 0]} 1%positive (Num 0) (Num 7)).
  reflexivity.
Defined.

(** C3. [addMonths] keeps the day of the month and adds to the month field
    with rollover: when the target month has the day, the result is that
    day of the target month; when it is shorter, the days in excess run
    into the month after it.  31 January 2026 plus one month is 3 March
    2026, and not 28 February. *)
Theorem addMonths_rolls_over h date t n :
  h !! date = Some (Num t) ->
  let y' := YearFromTime t + (MonthFromTime t + n) / 12 in
  let m' := (MonthFromTime t + n) mod 12 in
  let d := DateFromTime t in
  let c := MakeDayZ (YearFromTime t) (MonthFromTime t + n) d * msPerDay
           + TimeWithinDay t in
  (exists l h',
     addMonths date (Num n) h = (Ok l, h') /\ h !! l = None /\
     h' !! l = Some (TimeClip (Num c))) /\
  TimeWithinDay c = TimeWithinDay t /\
  (d <= DaysInMonth y' m' -> utcFields c = (y', m', d)) /\
  (DaysInMonth y' m' < d ->
   utcFields c = (y' + (m' + 1) / 12, (m' + 1) mod 12,
                  d - DaysInMonth y' m')) /\
  addMonths_value (Date_UTC (Num 2026) (Num 0) (Num 31)) (Num 1) =
    Date_UTC (Num 2026) (Num 2) (Num 3) /\
  addMonths_value (Date_UTC (Num 2026) (Num 0) (Num 31)) (Num 1) <>
    Date_UTC (Num 2026) (Num 1) (Num 28).
Proof.
  intros E y' m' d c.
  pose proof (TimeWithinDay_bounds t) as Htod.
  pose proof (DateFromTime_range t) as Hd. fold d in Hd.
  pose proof (DaysInMonth_bounds (YearFromTime t) (MonthFromTime t)).
  pose proof (DaysInMonth_bounds y' m').
  subst y' m'.
  split.
  { exists (fresh (dom h)), (<[fresh (dom h) := TimeClip (Num c)]> h).
    split; [by rewrite (addMonths_run h date (Num t))|].
    split; [apply fresh_None | apply lookup_insert_eq]. }
  split; [by apply TimeWithinDay_MakeDate|].
  split; [intros; apply fields_of_MakeDayZ; lia|].
  split; [intros; apply fields_of_MakeDayZ_overflow; [lia|done]|].
  split; [reflexivity|]. vm_compute. congruence.
Qed.

Lemma addMonths_rolls_over_witness :
  ({[1%positive := Num 1769817600000]} : gmap loc Number) !! 1%positive
    = Some (Num 1769817600000) /\
  exists l h',
    addMonths 1%positive (Num 1) {[1%positive := Num 1769817600000]}
      = (Ok l, h') /\
    h' !! l = Some (Num 1772496000000).
Proof.
  assert (E : ({[1%positive := Num 1769817600000]} : gmap loc Number)
               !! 1%positive = Some (Num 1769817600000)) by reflexivity.
  split; [exact E|].
  destruct (addMonths_rolls_over _ _ _ 1 E) as [(l & h' & R & _ & V) _].
  exists l, h'. split; [exact R | exact V].
Defined.

(** C4. [addYears] adds to the year field and keeps month and day; 29
    February in a target year that is not a leap year comes out as 1 March.
    29 February 2024 plus one year is 1 March 2025. *)
Theorem addYears_keeps_month_and_day h date t n :
  h !! date = Some (Num t) ->
  let y' := YearFromTime t + n in
  let m := MonthFromTime t in
  let d := DateFromTime t in
  let c := MakeDayZ y' m d * msPerDay + TimeWithinDay t in
  (exists l h',
     addYears date (Num n) h = (Ok l, h') /\ h !! l = None /\
     h' !! l = Some (TimeClip (Num c))) /\
  TimeWithinDay c = TimeWithinDay t /\
  (d <= DaysInMonth y' m -> utcFields c = (y', m, d)) /\
  (DaysInMonth y' m < d -> m = 1 /\ d = 29 /\ utcFields c = (y', 2, 1)) /\
  addYears_value (Date_UTC (Num 2024) (Num 1) (Num 29)) (Num 1) =
    Date_UTC (Num 2025) (Num 2) (Num 1).
Proof.
  intros E y' m d c.
  pose proof (TimeWithinDay_bounds t) as Htod.
  pose proof (DateFromTime_range t) as Hd. fold d m in Hd.
  pose proof (MonthFromTime_range t) as Hm. fold m in Hm.
  assert (Hdiv : m / 12 = 0) by dlia.
  assert (Hmod : m mod 12 = m) by dlia.
  split.
  { exists (fresh (dom h)), (<[fresh (dom h) := TimeClip (Num c)]> h).
    split; [by rewrite (addYears_run h date (Num t))|].
    split; [apply fresh_None | apply lookup_insert_eq]. }
  split; [by apply TimeWithinDay_MakeDate|].
  split.
  { intros Hle. unfold c.
    rewrite fields_of_MakeDayZ; rewrite ?Hdiv, ?Hmod, ?Z.add_0_r;
      [done | lia | done]. }
  split; [|reflexivity].
  intros Hlt.
  assert (m = 1 /\ d = 29 /\ DaysInMonth y' 1 = 28) as (Em & Ed & E28).
  { revert Hd Hlt. unfold DaysInMonth.
    destruct (month_cases m Hm) as [->|[->|[->|[->|[->|[->|[->|[->|[->|[->|[->| ->]]]]]]]]]]];
      repeat case_match; lia. }
  split; [done|]. split; [done|].
  unfold c. rewrite fields_of_MakeDayZ_overflow; rewrite ?Hdiv, ?Hmod, ?Z.add_0_r;
    [|rewrite Em, Ed, E28; lia|done].
  rewrite Em, Ed, E28. rewrite !pair_equal_spec. repeat split; dlia.
Qed.

Lemma addYears_keeps_month_and_day_witness :
  ({[1%positive := Num 1709164800000]} : gmap loc Number) !! 1%positive
    = Some (Num 1709164800000) /\
  exists l h',
    addYears 1%positive (Num 1) {[1%positive := Num 1709164800000]}
      = (Ok l, h') /\
    h' !! l = Some (Num 1740787200000).
Proof.
  assert (E : ({[1%positive := Num 1709164800000]} : gmap loc Number)
               !! 1%positive = Some (Num 1709164800000)) by reflexivity.
  split; [exact E|].
  destruct (addYears_keeps_month_and_day _ _ _ 1 E)
    as [(l & h' & R & _ & V) _].
  exists l, h'. split; [exact R | exact V].
Defined.

End Claims.

(** ** The schedule *)

Section Schedule.
Implicit Types (h : gmap loc Number) (date : loc) (tv : Number) (host : Host).

Lemma utcMidnight_fields y m d :
  0 <= m <= 11 -> 1 <= d <= DaysInMonth y m ->
  YearFromTime (utcMidnight y m d) = y /\
  MonthFromTime (utcMidnight y m d) = m /\
  DateFromTime (utcMidnight y m d) = d /\
  TimeWithinDay (utcMidnight y m d) = 0.
Proof.
  intros Hm Hd. unfold utcMidnight.
  rewrite <- (Z.add_0_r (MakeDayZ y m d * msPerDay)).
  assert (Hdiv : m / 12 = 0) by dlia.
  assert (Hmod : m mod 12 = m) by dlia.
  pose proof (fields_of_MakeDayZ y m d 0) as F.
  rewrite Hdiv, Hmod, Z.add_0_r in F. unfold utcFields in F.
  rewrite !pair_equal_spec in F.
  destruct F as [[F1 F2] F3]; [lia | done |].
  split; [exact F1|]. split; [exact F2|]. split; [exact F3|].
  by apply TimeWithinDay_MakeDate.
Qed.

(** The offsets of a midnight in the years 0 to 9999. *)
Lemma offsets_of_midnight y m d k :
  0 <= y <= 9999 -> 0 <= m <= 11 -> 1 <= d <= DaysInMonth y m ->
  -12 <= k <= 12 ->
  let start := utcMidnight y m d in
  addDays_value (Num start) (Num k) = Num (start + k * msPerDay) /\
  addMonths_value (Num start) (Num k) = Num (utcMidnight y (m + k) d) /\
  addYears_value (Num start) (Num k) = Num (utcMidnight (y + k) m d).
Proof.
  intros Hy Hm Hd Hk start.
  destruct (utcMidnight_fields y m d Hm Hd) as (EY & EM & ED & ETod).
  fold start in EY, EM, ED, ETod.
  pose proof (DaysInMonth_bounds y m).
  rewrite addDays_value_Num, addMonths_value_Num, addYears_value_Num.
  rewrite EY, EM, ED, ETod.
  rewrite !MakeDayZ_in_range by (unfold msPerDay; lia).
  unfold utcMidnight. repeat split; try (f_equal; lia).
  unfold start, utcMidnight.
  replace (MakeDayZ y m d * msPerDay + k * msPerDay)
    with (MakeDayZ y m (d + k) * msPerDay + 0) by (unfold MakeDayZ; lia).
  apply MakeDayZ_in_range; unfold msPerDay; lia.
Qed.

(** C2. A start date [YYYY-MM-DD] is read as UTC midnight of that day, and
    [calculateRevisionDates] returns five new dates, in this order: the
    start plus 7 days, plus 1, 3 and 6 months, and plus 1 year, each offset
    taken from the start date itself. *)
Theorem calculateRevisionDates_schedule host h y m d :
  0 <= y <= 9999 -> 1 <= m <= 12 -> 1 <= d <= DaysInMonth y (m - 1) ->
  let start := utcMidnight y (m - 1) d in
  Date_parse host (isoDateString y m d +:+ "T00:00:00.000Z") = Num start /\
  TimeWithinDay start = 0 /\
  utcFields start = (y, m - 1, d) /\
  exists l1 l2 l3 l4 l5 h',
    calculateRevisionDates host (isoDateString y m d) h =
      (Ok [l1; l2; l3; l4; l5], h') /\
    NoDup [l1; l2; l3; l4; l5] /\
    h' !! l1 = Some (addDays_value (Num start) (Num 7)) /\
    h' !! l2 = Some (addMonths_value (Num start) (Num 1)) /\
    h' !! l3 = Some (addMonths_value (Num start) (Num 3)) /\
    h' !! l4 = Some (addMonths_value (Num start) (Num 6)) /\
    h' !! l5 = Some (addYears_value (Num start) (Num 1)) /\
    addDays_value (Num start) (Num 7) = Num (start + 7 * msPerDay) /\
    addMonths_value (Num start) (Num 1) = Num (utcMidnight y (m - 1 + 1) d) /\
    addMonths_value (Num start) (Num 3) = Num (utcMidnight y (m - 1 + 3) d) /\
    addMonths_value (Num start) (Num 6) = Num (utcMidnight y (m - 1 + 6) d) /\
    addYears_value (Num start) (Num 1) = Num (utcMidnight (y + 1) (m - 1) d).
Proof.
  intros Hy Hm Hd start.
  pose proof (ParseFacts.Date_parse_isoDateString host y m d Hy Hm Hd) as P.
  fold start in P.
  destruct (utcMidnight_fields y (m - 1) d) as (F1 & F2 & F3 & T);
    [lia | exact Hd |].
  split; [exact P|].
  fold start in F1, F2, F3, T.
  split; [exact T|].
  split; [unfold utcFields; by rewrite F1, F2, F3|].
  destruct (calculateRevisionDates_run host (isoDateString y m d) h)
    as (l1 & l2 & l3 & l4 & l5 & h' & R & ND & _ & V1 & V2 & V3 & V4 & V5 & _).
  rewrite P in V1, V2, V3, V4, V5.
  exists l1, l2, l3, l4, l5, h'.
  do 7 (split; [assumption|]).
  assert (Hm' : 0 <= m - 1 <= 11) by lia.
  destruct (offsets_of_midnight y (m - 1) d 7 Hy Hm' Hd) as (O7 & _); [lia|].
  destruct (offsets_of_midnight y (m - 1) d 1 Hy Hm' Hd) as (_ & O1 & OY);
    [lia|].
  destruct (offsets_of_midnight y (m - 1) d 3 Hy Hm' Hd) as (_ & O3 & _);
    [lia|].
  destruct (offsets_of_midnight y (m - 1) d 6 Hy Hm' Hd) as (_ & O6 & _);
    [lia|].
  repeat split; assumption.
Qed.

(** Taken from the start date, and not from one another: three months
    after 31 January 2026 is 1 May, while two months after the one-month
    date, 3 March, would be 3 May. *)
Example offsets_not_chained :
  let start := Num (utcMidnight 2026 0 31) in
  addMonths_value start (Num 3) = Num (utcMidnight 2026 4 1) /\
  addMonths_value (addMonths_value start (Num 1)) (Num 2) =
    Num (utcMidnight 2026 4 3).
Proof. split; reflexivity. Qed.

Lemma calculateRevisionDates_schedule_witness :
  (0 <= 2026 <= 9999 /\ 1 <= 7 <= 12 /\ 1 <= 19 <= DaysInMonth 2026 (7 - 1)) /\
  Date_parse strictHost (isoDateString 2026 7 19 +:+ "T00:00:00.000Z") =
    Num (utcMidnight 2026 (7 - 1) 19).
Proof.
  assert (H : 1 <= 19 <= DaysInMonth 2026 (7 - 1))
    by (change (DaysInMonth 2026 (7 - 1)) with 31; lia).
  split; [split; [lia | split; [lia | exact H]]|].
  apply (calculateRevisionDates_schedule strictHost ∅ 2026 7 19); [lia | lia | exact H].
Defined.

Lemma mapM_formatDate h (ls : list loc) (tvs : list Number) :
  Forall2 (fun l tv => h !! l = Some tv) ls tvs ->
  mapM formatDate ls h = (Ok (formatDate_value <$> tvs), h).
Proof.
  induction 1 as [|l tv ls tvs E _ IH]; [done|].
  cbn [mapM]. erewrite bind_ok by (by apply formatDate_run).
  erewrite bind_ok by exact IH. reflexivity.
Qed.

(** C5. For the start date 2026-07-19, the five dates, formatted, are
    26th July 2026, 19th August 2026, 19th October 2026, 19th January 2027
    and 19th July 2027, in this order. *)
Theorem formattedDates_2026_07_19 host h :
  fst (formattedDates host "2026-07-19" h) =
  Ok ["26th July 2026"; "19th August 2026"; "19th October 2026";
      "19th January 2027"; "19th July 2027"]%string.
Proof.
  unfold formattedDates.
  destruct (calculateRevisionDates_run host "2026-07-19" h)
    as (l1 & l2 & l3 & l4 & l5 & h' & R & _ & _ & V1 & V2 & V3 & V4 & V5 & _).
  erewrite bind_ok by exact R.
  erewrite mapM_formatDate by (repeat (apply Forall2_cons_2; [eassumption|]); apply Forall2_nil_2).
  vm_compute. reflexivity.
Qed.

End Schedule.

(** ** Formatting *)

Section Format.
Implicit Types (h : gmap loc Number) (date : loc) (tv : Number) (host : Host).

(** On the days a month can have, [getOrdinalSuffix] is the rule of the
    specification. *)
Lemma getOrdinalSuffix_rule day :
  0 <= day -> getOrdinalSuffix (Num day) = ordinalRule day.
Proof.
  intros H. unfold getOrdinalSuffix, ordinalRule, num_ge, num_le, num_rem.
  destruct ((11 <=? day) && (day <=? 13)); [done|].
  change (10 =? 0) with false. cbv iota.
  rewrite Z.rem_mod_nonneg by lia.
  assert (0 <= day mod 10 < 10) as R by dlia.
  destruct (day mod 10) as [|p|p]; [done| |lia].
  do 4 (destruct p as [p|p|]; try lia; try done).
Qed.

Lemma getOrdinalSuffix_table day :
  1 <= day <= 31 ->
  getOrdinalSuffix (Num day) =
  if bool_decide (day ∈ [1; 21; 31]) then "st"%string
  else if bool_decide (day ∈ [2; 22]) then "nd"%string
  else if bool_decide (day ∈ [3; 23]) then "rd"%string
  else "th"%string.
Proof.
  intros H.
  assert (A : Forall (fun k =>
    getOrdinalSuffix (Num k) =
    if bool_decide (k ∈ [1; 21; 31]) then "st"%string
    else if bool_decide (k ∈ [2; 22]) then "nd"%string
    else if bool_decide (k ∈ [3; 23]) then "rd"%string
    else "th"%string) (seqZ 1 31)).
  { apply (bool_decide_unpack _). vm_compute. exact I. }
  rewrite Forall_forall in A. apply A, elem_of_seqZ. lia.
Qed.

(** C6. [formatDate] returns the UTC day with its ordinal suffix, the full
    English name of the UTC month and the UTC year, separated by spaces;
    the suffix is "th" for 11 to 13 and otherwise follows the last digit. *)
Theorem formatDate_layout h date t :
  h !! date = Some (Num t) ->
  let day := DateFromTime t in
  let month := MonthFromTime t in
  let year := YearFromTime t in
  formatDate date h =
    (Ok (Number_toString (Num day) +:+ ordinalRule day +:+ " " +:+
         monthName month +:+ " " +:+ Number_toString (Num year)), h) /\
  1 <= day <= 31 /\
  monthName month ∈
    ["January"; "February"; "March"; "April"; "May"; "June"; "July";
     "August"; "September"; "October"; "November"; "December"]%string /\
  ordinalRule day =
    (if bool_decide (day ∈ [1; 21; 31]) then "st"
     else if bool_decide (day ∈ [2; 22]) then "nd"
     else if bool_decide (day ∈ [3; 23]) then "rd"
     else "th")%string.
Proof.
  intros E day month year.
  pose proof (DateFromTime_range t) as Hd. fold day in Hd.
  pose proof (DaysInMonth_bounds (YearFromTime t) (MonthFromTime t)).
  pose proof (MonthFromTime_range t) as Hm. fold month in Hm.
  split.
  { rewrite (formatDate_run h date (Num t) E).
    unfold formatDate_value, UTCDate, UTCFullYear, field.
    fold day month year. by rewrite getOrdinalSuffix_rule by lia. }
  split; [lia|]. split.
  { destruct (month_cases month Hm)
      as [->|[->|[->|[->|[->|[->|[->|[->|[->|[->|[->| ->]]]]]]]]]]];
      cbn [monthName]; repeat constructor. }
  rewrite <- getOrdinalSuffix_rule by lia.
  apply getOrdinalSuffix_table. lia.
Qed.

Lemma formatDate_layout_witness :
  ({[1%positive := Num 1785024000000]} : gmap loc Number) !! 1%positive
    = Some (Num 1785024000000) /\
  formatDate 1%positive {[1%positive := Num 1785024000000]} =
    (Ok "26th July 2026"%string, {[1%positive := Num 1785024000000]}).
Proof.
  assert (E : ({[1%positive := Num 1785024000000]} : gmap loc Number)
               !! 1%positive = Some (Num 1785024000000)) by reflexivity.
  split; [exact E|].
  destruct (formatDate_layout _ _ _ E) as [R _]. exact R.
Defined.

End Format.

(** ** Today *)

Section Today.
Implicit Types (h : gmap loc Number) (date : loc) (tv : Number) (host : Host).

Lemma getTodayUTC_run host h :
  exists now today h',
    getTodayUTC host h = (Ok today, h') /\
    h !! today = None /\ today <> now /\ h !! now = None /\
    h' = <[today := getTodayUTC_value host]> (<[now := Num (clock host)]> h).
Proof.
  unfold getTodayUTC, new_Date_now, getFullYear, getMonth, getDate.
  set (now := fresh (dom h)). set (h0 := <[now := Num (clock host)]> h).
  assert (E0 : h0 !! now = Some (Num (clock host))) by apply lookup_insert_eq.
  erewrite (bind_ok (alloc _)) by reflexivity. fold now h0.
  do 3 erewrite bind_ok by (by apply getter_ok).
  exists now, (fresh (dom h0)), (<[fresh (dom h0) := getTodayUTC_value host]> h0).
  pose proof (fresh_None h0) as F. apply lookup_insert_None in F as [F1 F2].
  split; [reflexivity|]. split; [done|]. split; [done|].
  split; [apply fresh_None | done].
Qed.

(** C7. [isFutureDate(date)] is [date >= getTodayUTC()]: true exactly when
    both are valid dates and [date] is not before today, so also when
    [date] is today itself. *)
Theorem isFutureDate_inclusive host h date tv :
  h !! date = Some tv ->
  exists today tod h',
    getTodayUTC host h = (Ok today, h') /\
    h' !! today = Some tod /\
    isFutureDate host date h = (Ok (num_ge tv tod), h') /\
    (num_ge tv tod = true <->
     exists a b, tv = Num a /\ tod = Num b /\ b <= a) /\
    (forall a, tv = Num a -> tod = Num a -> num_ge tv tod = true).
Proof.
  intros E.
  destruct (getTodayUTC_run host h) as (now & today & h' & R & F1 & NE & F2 & ->).
  eexists today, (getTodayUTC_value host), _.
  assert (V : <[today := getTodayUTC_value host]>
                (<[now := Num (clock host)]> h) !! today
              = Some (getTodayUTC_value host)) by apply lookup_insert_eq.
  assert (D : <[today := getTodayUTC_value host]>
                (<[now := Num (clock host)]> h) !! date = Some tv).
  { rewrite !lookup_insert_ne by congruence. exact E. }
  split; [exact R|]. split; [exact V|]. split.
  { unfold isFutureDate, valueOf.
    erewrite bind_ok by exact R.
    erewrite bind_ok by (apply thisTimeValue_ok; exact D).
    erewrite bind_ok by (apply thisTimeValue_ok; exact V). reflexivity. }
  split.
  - generalize (getTodayUTC_value host). intros tod. split.
    + destruct tv as [|a], tod as [|b]; try discriminate. cbn [num_ge].
      intros L. exists a, b. apply Z.leb_le in L. auto.
    + intros (a & b & -> & -> & L). cbn [num_ge]. by apply Z.leb_le.
  - intros a -> ->. cbn [num_ge]. apply Z.leb_refl.
Qed.

Lemma isFutureDate_inclusive_witness :
  ({[1%positive := Num 1784505600000]} : gmap loc Number) !! 1%positive
    = Some (Num 1784505600000) /\
  exists tod h',
    isFutureDate eveningHost 1%positive {[1%positive := Num 1784505600000]}
      = (Ok (num_ge (Num 1784505600000) tod), h').
Proof.
  assert (E : ({[1%positive := Num 1784505600000]} : gmap loc Number)
               !! 1%positive = Some (Num 1784505600000)) by reflexivity.
  split; [exact E|].
  destruct (isFutureDate_inclusive eveningHost _ _ _ E)
    as (today & tod & h' & _ & _ & R & _).
  exists tod, h'. exact R.
Defined.

(** The date [getTodayUTC] returns follows the local calendar: late in the
    evening of 19 July UTC, two hours ahead of UTC, today is 20 July. *)
Example getTodayUTC_evening :
  utcFields (clock eveningHost) = (2026, 6, 19) /\
  getTodayUTC_value eveningHost = Num (utcMidnight 2026 6 20).
Proof. split; reflexivity. Qed.

Lemma Date_UTC_midnight y m d :
  ~ 0 <= y <= 99 -> in_range (utcMidnight y m d) ->
  Date_UTC (Num y) (Num m) (Num d) = Num (utcMidnight y m d).
Proof.
  intros Hy Hr. unfold Date_UTC, MakeFullYear.
  replace ((0 <=? y) && (y <=? 99)) with false
    by (symmetry; apply andb_false_iff; lia).
  unfold MakeDay, MakeTime, MakeDate.
  fold (utcMidnight y m d).
  replace (0 * msPerHour + 0 * msPerMinute + 0 * msPerSecond + 0) with 0
    by reflexivity.
  rewrite Z.add_0_r. by apply TimeClip_in_range.
Qed.

(** C9. [getTodayUTC] returns a new date that is UTC midnight of the
    clock's local calendar date: its UTC year, month and day are the local
    year, month and day of the instant, and its time within the day is 0.
    The two conditions hold for every instant a running clock shows: the
    local year is not one of the years 0 to 99, which [Date.UTC] reads as
    1900 to 1999, and the midnight of the local date is a time value. *)
Theorem getTodayUTC_local_date host h :
  let lt := LocalTime host (clock host) in
  let y := YearFromTime lt in
  let m := MonthFromTime lt in
  let d := DateFromTime lt in
  ~ 0 <= y <= 99 ->
  in_range (utcMidnight y m d) ->
  exists today h',
    getTodayUTC host h = (Ok today, h') /\
    h !! today = None /\
    h' !! today = Some (Num (utcMidnight y m d)) /\
    utcFields (utcMidnight y m d) = (y, m, d) /\
    TimeWithinDay (utcMidnight y m d) = 0.
Proof.
  intros lt y m d Hy Hr.
  destruct (getTodayUTC_run host h) as (now & today & h' & R & F1 & _ & _ & ->).
  exists today. eexists. split; [exact R|]. split; [exact F1|].
  pose proof (MonthFromTime_range lt) as Hm. fold m in Hm.
  pose proof (DateFromTime_range lt) as Hd. fold y m d in Hd.
  destruct (utcMidnight_fields y m d Hm Hd) as (E1 & E2 & E3 & E4).
  split.
  { rewrite lookup_insert_eq. f_equal. unfold getTodayUTC_value.
    fold lt y m d. rewrite Date_UTC_midnight by assumption.
    by apply TimeClip_in_range. }
  split; [|exact E4].
  unfold utcFields. by rewrite E1, E2, E3.
Qed.

Lemma getTodayUTC_local_date_witness :
  ~ 0 <= 2026 <= 99 /\
  in_range (utcMidnight 2026 6 20) /\
  exists today h',
    getTodayUTC eveningHost ∅ = (Ok today, h') /\
    h' !! today = Some (Num (utcMidnight 2026 6 20)).
Proof.
  assert (Hy : ~ 0 <= 2026 <= 99) by lia.
  assert (Hr : in_range (utcMidnight 2026 6 20))
    by (vm_compute; split; discriminate).
  split; [exact Hy|]. split; [exact Hr|].
  destruct (getTodayUTC_local_date eveningHost ∅ Hy Hr)
    as (today & h' & R & _ & V & _).
  exists today, h'. split; [exact R | exact V].
Defined.

(** What the two conditions leave out.  With the clock set to the year 50,
    [Date.UTC] reads the year as 1950. *)
Example year50_today_fields :
  utcFields (LocalTime year50Host (clock year50Host)) = (50, 5, 20) /\
  field YearFromTime (getTodayUTC_value year50Host) = Num 1950.
Proof. split; reflexivity. Qed.

(** At the first instant of the range, an hour behind UTC, the local date
    is the day before the range starts, and today is an invalid date. *)
Example getTodayUTC_before_range :
  utcFields (LocalTime earliestHost (clock earliestHost)) = (-271821, 3, 19) /\
  getTodayUTC_value earliestHost = NaN.
Proof. split; reflexivity. Qed.

End Today.

(** ** Start dates that do not parse *)

Section Invalid.
Implicit Types (h : gmap loc Number) (date : loc) (tv : Number) (host : Host).








End Invalid.

(** * Further properties of the module *)

(** ** The offset functions as calendar arithmetic *)

Section Offsets.
Implicit Types (h : gmap loc Number) (date : loc) (tv : Number) (t n k : Z).

Lemma returns_date_alloc (c : M loc) h v :
  c h = (Ok (fresh (dom h)), <[fresh (dom h) := v]> h) -> returns_date c h v.
Proof.
  intros R. exists (fresh (dom h)), (<[fresh (dom h) := v]> h).
  split; [exact R|]. split; [apply fresh_None | apply lookup_insert_eq].
Qed.

Lemma addDays_returns h date tv (v : Number) :
  h !! date = Some tv -> returns_date (addDays date v) h (addDays_value tv v).
Proof. intros E. apply returns_date_alloc. by apply addDays_run. Qed.

Lemma addMonths_returns h date tv (v : Number) :
  h !! date = Some tv ->
  returns_date (addMonths date v) h (addMonths_value tv v).
Proof. intros E. apply returns_date_alloc. by apply addMonths_run. Qed.

Lemma addYears_returns h date tv (v : Number) :
  h !! date = Some tv -> returns_date (addYears date v) h (addYears_value tv v).
Proof. intros E. apply returns_date_alloc. by apply addYears_run. Qed.

Lemma MakeDayZ_date y m dt a : MakeDayZ y m (dt + a) = MakeDayZ y m dt + a.
Proof. unfold MakeDayZ. lia. Qed.

Lemma MakeDayZ_month_succ y m dt :
  MakeDayZ y (m + 1) dt =
  MakeDayZ y m dt + DaysInMonth (y + m / 12) (m mod 12).
Proof.
  rewrite (MakeDayZ_overflow y m dt).
  replace dt with (dt - DaysInMonth (y + m / 12) (m mod 12)
                   + DaysInMonth (y + m / 12) (m mod 12)) at 1 by lia.
  apply MakeDayZ_date.
Qed.

Lemma MakeDayZ_year_months y m dt k :
  MakeDayZ (y + k) m dt = MakeDayZ y (m + 12 * k) dt.
Proof.
  unfold MakeDayZ.
  replace ((m + 12 * k) / 12) with (m / 12 + k) by dlia.
  replace ((m + 12 * k) mod 12) with (m mod 12) by dlia.
  replace (y + k + m / 12) with (y + (m / 12 + k)) by lia. reflexivity.
Qed.

(** [n] months on are between [28 n] and [31 n] days on. *)
Lemma MakeDayZ_months_bounds y m dt n :
  0 <= n ->
  MakeDayZ y m dt + 28 * n <= MakeDayZ y (m + n) dt <= MakeDayZ y m dt + 31 * n.
Proof.
  intros Hn. pattern n. apply natlike_ind; [|clear n Hn|exact Hn].
  - replace (m + 0) with m by lia. lia.
  - intros n Hn IH. replace (m + Z.succ n) with (m + n + 1) by lia.
    rewrite MakeDayZ_month_succ.
    pose proof (DaysInMonth_bounds (y + (m + n) / 12) ((m + n) mod 12)). lia.
Qed.

Lemma DayFromYear_bounds y n :
  0 <= n -> DayFromYear y + 365 * n <= DayFromYear (y + n) <= DayFromYear y + 366 * n.
Proof.
  intros Hn. pattern n. apply natlike_ind; [|clear n Hn|exact Hn].
  - replace (y + 0) with y by lia. lia.
  - intros n Hn IH. replace (y + Z.succ n) with (y + n + 1) by lia.
    rewrite DayFromYear_succ. pose proof (DaysInYear_cases (y + n)). lia.
Qed.

(** [n] years on are between [365 n] and [366 n] days on. *)
Lemma MakeDayZ_years_bounds y m dt n :
  0 <= m <= 11 -> 0 <= n ->
  MakeDayZ y m dt + 365 * n <= MakeDayZ (y + n) m dt
                            <= MakeDayZ y m dt + 366 * n.
Proof.
  intros Hm Hn. unfold MakeDayZ.
  replace (m / 12) with 0 by dlia. replace (m mod 12) with m by dlia.
  rewrite !Z.add_0_r.
  destruct (Z.le_gt_cases m 1) as [Lo|Hi].
  - assert (DaysBeforeMonth (y + n) m = DaysBeforeMonth y m) as ->.
    { unfold DaysBeforeMonth.
      assert (m = 0 \/ m = 1) as [-> | ->] by lia; reflexivity. }
    pose proof (DayFromYear_bounds y n Hn). lia.
  - assert (forall z, DayFromYear z + DaysBeforeMonth z m =
                      DayFromYear (z + 1) - 365 + DaysBeforeMonth 1 m) as E.
    { intros z. rewrite DayFromYear_succ. unfold DaysBeforeMonth.
      change (DaysInYear 1 =? 366) with false.
      month_split m Hm; try lia; leap_split z; simpl; lia. }
    rewrite (E (y + n)), (E y).
    pose proof (DayFromYear_bounds (y + 1) n Hn).
    replace (y + n + 1) with (y + 1 + n) by lia. lia.
Qed.

(** X1. [addDays(date, n)] is the instant [n] days of 24 hours after
    [date]: the new object holds the time value plus [n] days, or is an
    invalid date when that is outside of the time-value range. *)
Theorem addDays_adds_days h date t n :
  h !! date = Some (Num t) ->
  returns_date (addDays date (Num n)) h (TimeClip (Num (t + days n))) /\
  (in_range (t + days n) ->
   returns_date (addDays date (Num n)) h (Num (t + days n))) /\
  (~ in_range (t + days n) -> returns_date (addDays date (Num n)) h NaN).
Proof.
  intros E.
  pose proof (addDays_returns h date (Num t) (Num n) E) as R.
  rewrite addDays_value_Num in R. fold (days n) in R.
  split; [exact R|]. split; intros Hr.
  - by rewrite TimeClip_in_range in R.
  - by rewrite TimeClip_out_of_range in R.
Qed.

Lemma addDays_adds_days_witness :
  ({[1%positive := Num 0]} : gmap loc Number) !! 1%positive = Some (Num 0) /\
  returns_date (addDays 1%positive (Num 7)) {[1%positive := Num 0]}
               (TimeClip (Num (0 + days 7))).
Proof.
  assert (E : ({[1%positive := Num 0]} : gmap loc Number) !! 1%positive
              = Some (Num 0)) by reflexivity.
  split; [exact E|].
  destruct (addDays_adds_days _ _ _ 7 E) as [R _]. exact R.
Defined.

Lemma returns_date_then (f g : loc -> M loc) (F G : Number -> Number) h date tv :
  (forall h d v, h !! d = Some v ->
     f d h = (Ok (fresh (dom h)), <[fresh (dom h) := F v]> h)) ->
  (forall h d v, h !! d = Some v ->
     g d h = (Ok (fresh (dom h)), <[fresh (dom h) := G v]> h)) ->
  h !! date = Some tv ->
  returns_date (d ← f date; g d) h (G (F tv)).
Proof.
  intros Hf Hg E.
  set (h1 := <[fresh (dom h) := F tv]> h).
  exists (fresh (dom h1)), (<[fresh (dom h1) := G (F tv)]> h1).
  split.
  { erewrite bind_ok by (by apply Hf). apply Hg. apply lookup_insert_eq. }
  split; [|apply lookup_insert_eq].
  pose proof (fresh_None h1) as F1. unfold h1 at 1 in F1.
  apply lookup_insert_None in F1. tauto.
Qed.

(** X2. Two calls of [addDays] in a row add up: [a] days and then [b] days
    are [a + b] days, as long as the date in between is a valid date.  In
    particular [-a] days undo [a] days. *)
Theorem addDays_twice h date t a b :
  h !! date = Some (Num t) ->
  in_range (t + days a) ->
  returns_date (d ← addDays date (Num a); addDays d (Num b)) h
               (TimeClip (Num (t + days (a + b)))) /\
  (in_range t ->
   returns_date (d ← addDays date (Num a); addDays d (Num (- a))) h (Num t)).
Proof.
  intros E Hr.
  assert (C : forall c, addDays_value (addDays_value (Num t) (Num a)) (Num c)
                        = TimeClip (Num (t + days (a + c)))).
  { intros c. rewrite addDays_value_Num. fold (days a).
    rewrite (TimeClip_in_range _ Hr), addDays_value_Num.
    do 2 f_equal. unfold days. lia. }
  split.
  - rewrite <- C.
    apply (returns_date_then (fun d => addDays d (Num a))
             (fun d => addDays d (Num b))
             (fun v => addDays_value v (Num a))
             (fun v => addDays_value v (Num b))); [| |exact E];
      intros; by apply addDays_run.
  - intros Ht.
    replace (Num t) with (TimeClip (Num (t + days (a + - a)))).
    2:{ replace (t + days (a + - a)) with t by (unfold days; lia).
        by apply TimeClip_in_range. }
    rewrite <- C.
    apply (returns_date_then (fun d => addDays d (Num a))
             (fun d => addDays d (Num (- a)))
             (fun v => addDays_value v (Num a))
             (fun v => addDays_value v (Num (- a)))); [| |exact E];
      intros; by apply addDays_run.
Qed.

Lemma addDays_twice_witness :
  ({[1%positive := Num 0]} : gmap loc Number) !! 1%positive = Some (Num 0) /\
  in_range (0 + days 7) /\
  returns_date (d ← addDays 1%positive (Num 7); addDays d (Num 3))
               {[1%positive := Num 0]} (TimeClip (Num (0 + days (7 + 3)))).
Proof.
  assert (E : ({[1%positive := Num 0]} : gmap loc Number) !! 1%positive
              = Some (Num 0)) by reflexivity.
  assert (Hr : in_range (0 + days 7)) by (vm_compute; split; discriminate).
  split; [exact E|]. split; [exact Hr|].
  destruct (addDays_twice _ _ _ _ 3 E Hr) as [R _]. exact R.
Defined.

(** X3. Twelve months are a year: [addMonths(date, 12 k)] and
    [addYears(date, k)] return the same date, for a valid date as for an
    invalid one. *)
Theorem addMonths_twelve_is_addYears h date tv k :
  h !! date = Some tv ->
  exists v,
    returns_date (addMonths date (Num (12 * k))) h v /\
    returns_date (addYears date (Num k)) h v.
Proof.
  intros E. exists (addYears_value tv (Num k)). split.
  - replace (addYears_value tv (Num k)) with (addMonths_value tv (Num (12 * k))).
    + by apply addMonths_returns.
    + destruct tv as [|t]; [reflexivity|].
      rewrite addMonths_value_Num, addYears_value_Num.
      by rewrite MakeDayZ_year_months.
  - by apply addYears_returns.
Qed.

Lemma addMonths_twelve_is_addYears_witness :
  ({[1%positive := Num 0]} : gmap loc Number) !! 1%positive = Some (Num 0) /\
  exists v,
    returns_date (addMonths 1%positive (Num (12 * 1))) {[1%positive := Num 0]} v /\
    returns_date (addYears 1%positive (Num 1)) {[1%positive := Num 0]} v.
Proof.
  assert (E : ({[1%positive := Num 0]} : gmap loc Number) !! 1%positive
              = Some (Num 0)) by reflexivity.
  split; [exact E|]. exact (addMonths_twelve_is_addYears _ _ _ 1 E).
Defined.

(** X4. An offset of zero copies the date: the three functions return a
    new object with the time value of their argument. *)
Theorem zero_offset_copies h date t :
  h !! date = Some (Num t) -> in_range t ->
  returns_date (addDays date (Num 0)) h (Num t) /\
  returns_date (addMonths date (Num 0)) h (Num t) /\
  returns_date (addYears date (Num 0)) h (Num t).
Proof.
  intros E Hr.
  assert (C : MakeDayZ (YearFromTime t) (MonthFromTime t) (DateFromTime t)
                * msPerDay + TimeWithinDay t = t).
  { pose proof (MakeDayZ_fields t 0) as F. rewrite !Z.add_0_r in F.
    rewrite F. symmetry. apply Day_TimeWithinDay. }
  split; [|split].
  - replace (Num t) with (addDays_value (Num t) (Num 0));
      [by apply addDays_returns|].
    rewrite addDays_value_Num, Z.mul_0_l, Z.add_0_r.
    by apply TimeClip_in_range.
  - replace (Num t) with (addMonths_value (Num t) (Num 0));
      [by apply addMonths_returns|].
    rewrite addMonths_value_Num, Z.add_0_r, C. by apply TimeClip_in_range.
  - replace (Num t) with (addYears_value (Num t) (Num 0));
      [by apply addYears_returns|].
    rewrite addYears_value_Num, Z.add_0_r, C. by apply TimeClip_in_range.
Qed.

Lemma zero_offset_copies_witness :
  ({[1%positive := Num 0]} : gmap loc Number) !! 1%positive = Some (Num 0) /\
  in_range 0 /\
  returns_date (addMonths 1%positive (Num 0)) {[1%positive := Num 0]} (Num 0).
Proof.
  assert (E : ({[1%positive := Num 0]} : gmap loc Number) !! 1%positive
              = Some (Num 0)) by reflexivity.
  assert (Hr : in_range 0) by (vm_compute; split; discriminate).
  split; [exact E|]. split; [exact Hr|].
  destruct (zero_offset_copies _ _ _ E Hr) as (_ & R & _). exact R.
Defined.

(** X5. Forward offsets move forward, by a bounded number of days:
    [n] months on are 28 n to 31 n days later, [n] years on are 365 n to
    366 n days later, at the same time of day.  The date stored is the
    instant [c] below, or an invalid date when [c] is out of range. *)
Theorem forward_offsets_bounds h date t n :
  h !! date = Some (Num t) -> 0 <= n ->
  (exists c, returns_date (addMonths date (Num n)) h (TimeClip (Num c)) /\
             t + days (28 * n) <= c <= t + days (31 * n) /\
             TimeWithinDay c = TimeWithinDay t) /\
  (exists c, returns_date (addYears date (Num n)) h (TimeClip (Num c)) /\
             t + days (365 * n) <= c <= t + days (366 * n) /\
             TimeWithinDay c = TimeWithinDay t).
Proof.
  intros E Hn.
  pose proof (TimeWithinDay_bounds t) as Htod.
  pose proof (MonthFromTime_range t) as Hm.
  assert (C : t = MakeDayZ (YearFromTime t) (MonthFromTime t) (DateFromTime t)
                  * msPerDay + TimeWithinDay t).
  { pose proof (MakeDayZ_fields t 0) as F. rewrite !Z.add_0_r in F.
    rewrite F. apply Day_TimeWithinDay. }
  split.
  - eexists. split; [|split].
    + rewrite <- addMonths_value_Num. by apply addMonths_returns.
    + pose proof (MakeDayZ_months_bounds (YearFromTime t) (MonthFromTime t)
                    (DateFromTime t) n Hn).
      unfold days, msPerDay in *. lia.
    + by apply TimeWithinDay_MakeDate.
  - eexists. split; [|split].
    + rewrite <- addYears_value_Num. by apply addYears_returns.
    + pose proof (MakeDayZ_years_bounds (YearFromTime t) (MonthFromTime t)
                    (DateFromTime t) n Hm Hn).
      unfold days, msPerDay in *. lia.
    + by apply TimeWithinDay_MakeDate.
Qed.

Lemma forward_offsets_bounds_witness :
  ({[1%positive := Num 0]} : gmap loc Number) !! 1%positive = Some (Num 0) /\
  0 <= 3 /\
  exists c, returns_date (addMonths 1%positive (Num 3)) {[1%positive := Num 0]}
                         (TimeClip (Num c)) /\
            0 + days (28 * 3) <= c <= 0 + days (31 * 3) /\
            TimeWithinDay c = TimeWithinDay 0.
Proof.
  assert (E : ({[1%positive := Num 0]} : gmap loc Number) !! 1%positive
              = Some (Num 0)) by reflexivity.
  assert (Hn : 0 <= 3) by lia.
  split; [exact E|]. split; [exact Hn|].
  destruct (forward_offsets_bounds _ _ _ 3 E Hn) as [R _]. exact R.
Defined.

(** X6. Invalid in, invalid out: on an invalid date, and also with an
    offset that is NaN, the three functions return an invalid date; they
    do not throw. *)
Theorem offsets_of_invalid h date tv (v : Number) :
  h !! date = Some tv ->
  tv = NaN \/ v = NaN ->
  returns_date (addDays date v) h NaN /\
  returns_date (addMonths date v) h NaN /\
  returns_date (addYears date v) h NaN.
Proof.
  intros E Hnan.
  assert (addDays_value tv v = NaN /\ addMonths_value tv v = NaN /\
          addYears_value tv v = NaN) as (E1 & E2 & E3).
  { destruct Hnan as [-> | ->]; [done|].
    destruct tv as [|t]; [done|]. repeat split; reflexivity. }
  split; [|split].
  - rewrite <- E1. by apply addDays_returns.
  - rewrite <- E2. by apply addMonths_returns.
  - rewrite <- E3. by apply addYears_returns.
Qed.

Lemma offsets_of_invalid_witness :
  ({[1%positive := NaN]} : gmap loc Number) !! 1%positive = Some NaN /\
  (NaN = NaN \/ Num 7 = NaN) /\
  returns_date (addDays 1%positive (Num 7)) {[1%positive := NaN]} NaN.
Proof.
  assert (E : ({[1%positive := NaN]} : gmap loc Number) !! 1%positive
              = Some NaN) by reflexivity.
  assert (H : NaN = NaN \/ Num 7 = NaN) by (left; reflexivity).
  split; [exact E|]. split; [exact H|].
  destruct (offsets_of_invalid _ _ _ (Num 7) E H) as [R _]. exact R.
Defined.

End Offsets.

(** ** The schedule in time *)

Section Order.
Implicit Types (h : gmap loc Number) (date : loc) (tv : Number) (host : Host).

Lemma schedule_values host s h t :
  Date_parse host (s +:+ "T00:00:00.000Z") = Num t ->
  in_range t ->
  in_range (MakeDayZ (YearFromTime t + 1) (MonthFromTime t) (DateFromTime t)
            * msPerDay + TimeWithinDay t) ->
  exists l1 l2 l3 l4 l5 h' v1 v2 v3 v4 v5,
    calculateRevisionDates host s h = (Ok [l1; l2; l3; l4; l5], h') /\
    h' !! l1 = Some (Num v1) /\ h' !! l2 = Some (Num v2) /\
    h' !! l3 = Some (Num v3) /\ h' !! l4 = Some (Num v4) /\
    h' !! l5 = Some (Num v5) /\
    t < v1 < v2 /\ v2 < v3 < v4 /\ v4 < v5 /\ in_range v5 /\
    v1 = t + days 7 /\
    v2 = MakeDayZ (YearFromTime t) (MonthFromTime t + 1) (DateFromTime t)
         * msPerDay + TimeWithinDay t /\
    v3 = MakeDayZ (YearFromTime t) (MonthFromTime t + 3) (DateFromTime t)
         * msPerDay + TimeWithinDay t /\
    v4 = MakeDayZ (YearFromTime t) (MonthFromTime t + 6) (DateFromTime t)
         * msPerDay + TimeWithinDay t /\
    v5 = MakeDayZ (YearFromTime t + 1) (MonthFromTime t) (DateFromTime t)
         * msPerDay + TimeWithinDay t.
Proof.
  intros P Ht Hlast.
  destruct (calculateRevisionDates_run host s h)
    as (l1 & l2 & l3 & l4 & l5 & h' & R & _ & _ & V1 & V2 & V3 & V4 & V5 & _).
  rewrite P in V1, V2, V3, V4, V5.
  rewrite addDays_value_Num in V1. rewrite addMonths_value_Num in V2, V3, V4.
  rewrite addYears_value_Num in V5. fold (days 7) in V1.
  set (Y := YearFromTime t) in *. set (Mo := MonthFromTime t) in *.
  set (D := DateFromTime t) in *. set (tod := TimeWithinDay t) in *.
  set (v1 := t + days 7) in *.
  set (v2 := MakeDayZ Y (Mo + 1) D * msPerDay + tod) in *.
  set (v3 := MakeDayZ Y (Mo + 3) D * msPerDay + tod) in *.
  set (v4 := MakeDayZ Y (Mo + 6) D * msPerDay + tod) in *.
  set (v5 := MakeDayZ (Y + 1) Mo D * msPerDay + tod) in *.
  assert (O : t < v1 < v2 /\ v2 < v3 < v4 /\ v4 < v5).
  { assert (C : t = MakeDayZ Y Mo D * msPerDay + tod).
    { pose proof (MakeDayZ_fields t 0) as F. rewrite !Z.add_0_r in F.
      fold Y Mo D in F. rewrite F. apply Day_TimeWithinDay. }
    pose proof (MakeDayZ_months_bounds Y Mo D 1) as B1.
    pose proof (MakeDayZ_months_bounds Y (Mo + 1) D 2) as B3.
    pose proof (MakeDayZ_months_bounds Y (Mo + 3) D 3) as B6.
    pose proof (MakeDayZ_months_bounds Y (Mo + 6) D 6) as B12.
    replace (Mo + 1 + 2) with (Mo + 3) in B3 by lia.
    replace (Mo + 3 + 3) with (Mo + 6) in B6 by lia.
    replace (Mo + 6 + 6) with (Mo + 12 * 1) in B12 by lia.
    rewrite <- MakeDayZ_year_months in B12.
    subst v1 v2 v3 v4 v5. clear V1 V2 V3 V4 V5 Hlast Ht.
    set (c1 := MakeDayZ Y (Mo + 1) D) in *.
    set (c3 := MakeDayZ Y (Mo + 3) D) in *.
    set (c6 := MakeDayZ Y (Mo + 6) D) in *.
    set (c12 := MakeDayZ (Y + 1) Mo D) in *.
    set (c0 := MakeDayZ Y Mo D) in *.
    clearbody c0 c1 c3 c6 c12 tod.
    unfold days, msPerDay in *. lia. }
  destruct Ht as [Hlo Hhi]. pose proof Hlast as [_ Hl5].
  rewrite TimeClip_in_range in V1, V2, V3, V4, V5
    by (unfold in_range; lia).
  exists l1, l2, l3, l4, l5, h', v1, v2, v3, v4, v5.
  split; [exact R|].
  do 5 (split; [assumption|]).
  destruct O as (O1 & O2 & O3).
  do 3 (split; [assumption|]). split; [exact Hlast|].
  repeat split; reflexivity.
Qed.

(** X7. The five revision dates come in chronological order, all after
    the start date: whenever the start date parses and the date a year on
    is still a valid date, the five dates are valid and strictly
    increasing. *)
Theorem schedule_in_chronological_order host s h t :
  Date_parse host (s +:+ "T00:00:00.000Z") = Num t ->
  in_range t ->
  in_range (MakeDayZ (YearFromTime t + 1) (MonthFromTime t) (DateFromTime t)
            * msPerDay + TimeWithinDay t) ->
  exists l1 l2 l3 l4 l5 h' v1 v2 v3 v4 v5,
    calculateRevisionDates host s h = (Ok [l1; l2; l3; l4; l5], h') /\
    h' !! l1 = Some (Num v1) /\ h' !! l2 = Some (Num v2) /\
    h' !! l3 = Some (Num v3) /\ h' !! l4 = Some (Num v4) /\
    h' !! l5 = Some (Num v5) /\
    t < v1 < v2 /\ v2 < v3 < v4 /\ v4 < v5.
Proof.
  intros P Ht Hlast.
  destruct (schedule_values host s h t P Ht Hlast)
    as (l1 & l2 & l3 & l4 & l5 & h' & v1 & v2 & v3 & v4 & v5 & R & V1 & V2
        & V3 & V4 & V5 & O1 & O2 & O3 & _).
  exists l1, l2, l3, l4, l5, h', v1, v2, v3, v4, v5.
  repeat (split; [assumption|]). assumption.
Qed.

Lemma schedule_in_chronological_order_witness :
  Date_parse strictHost ("2026-07-19" +:+ "T00:00:00.000Z")
    = Num 1784419200000 /\
  exists l1 l2 l3 l4 l5 h' v1 v2 v3 v4 v5,
    calculateRevisionDates strictHost "2026-07-19" ∅
      = (Ok [l1; l2; l3; l4; l5], h') /\
    h' !! l1 = Some (Num v1) /\ h' !! l2 = Some (Num v2) /\
    h' !! l3 = Some (Num v3) /\ h' !! l4 = Some (Num v4) /\
    h' !! l5 = Some (Num v5) /\
    1784419200000 < v1 < v2 /\ v2 < v3 < v4 /\ v4 < v5.
Proof.
  assert (P : Date_parse strictHost ("2026-07-19" +:+ "T00:00:00.000Z")
              = Num 1784419200000) by reflexivity.
  split; [exact P|].
  apply (schedule_in_chronological_order strictHost _ ∅ _ P);
    vm_compute; split; discriminate.
Defined.

End Order.

(** ** Edges of formatting and of today *)

Section Edges.
Implicit Types (h : gmap loc Number) (date : loc) (tv : Number) (host : Host).

(** X8. [formatDate] does not throw on an invalid date: it returns the
    string made of the NaN fields, and leaves the heap as it was. *)
Theorem formatDate_of_invalid h date :
  h !! date = Some NaN ->
  formatDate date h = (Ok "NaNth Invalid Date NaN"%string, h).
Proof. intros E. by rewrite (formatDate_run h date NaN E). Qed.

Lemma formatDate_of_invalid_witness :
  ({[1%positive := NaN]} : gmap loc Number) !! 1%positive = Some NaN /\
  formatDate 1%positive {[1%positive := NaN]} =
    (Ok "NaNth Invalid Date NaN"%string, {[1%positive := NaN]}).
Proof.
  assert (E : ({[1%positive := NaN]} : gmap loc Number) !! 1%positive
              = Some NaN) by reflexivity.
  split; [exact E|]. exact (formatDate_of_invalid _ _ E).
Defined.

(** X9. [getOrdinalSuffix] on every Number: "th" for NaN, for zero and
    for negative numbers; from 14 on only the last digit counts, so that
    111, 112 and 113 take "st", "nd" and "rd". *)
Theorem getOrdinalSuffix_all_numbers :
  getOrdinalSuffix NaN = "th"%string /\
  (forall n, n <= 0 -> getOrdinalSuffix (Num n) = "th"%string) /\
  (forall n, 14 <= n ->
     getOrdinalSuffix (Num (n + 10)) = getOrdinalSuffix (Num n)) /\
  getOrdinalSuffix (Num 111) = "st"%string /\
  getOrdinalSuffix (Num 112) = "nd"%string /\
  getOrdinalSuffix (Num 113) = "rd"%string.
Proof.
  split; [reflexivity|]. split; [|split; [|repeat split; reflexivity]].
  - intros n Hn. unfold getOrdinalSuffix, num_ge, num_le, num_rem.
    replace (11 <=? n) with false by (symmetry; apply Z.leb_gt; lia).
    change (10 =? 0) with false. cbv iota. cbn [andb].
    assert (B : Z.rem n 10 <= 0) by (apply Z.rem_nonpos; lia).
    destruct (Z.rem n 10) as [|p|p]; [done| |done].
    lia.
  - intros n Hn. rewrite !getOrdinalSuffix_rule by lia.
    unfold ordinalRule.
    replace ((11 <=? n + 10) && (n + 10 <=? 13)) with false
      by (symmetry; apply andb_false_iff; right; apply Z.leb_gt; lia).
    replace ((11 <=? n) && (n <=? 13)) with false
      by (symmetry; apply andb_false_iff; right; apply Z.leb_gt; lia).
    replace ((n + 10) mod 10) with (n mod 10) by dlia. reflexivity.
Qed.

Lemma isFutureDate_run host h date tv :
  h !! date = Some tv ->
  exists h',
    isFutureDate host date h = (Ok (num_ge tv (getTodayUTC_value host)), h') /\
    forall l, is_Some (h !! l) -> h' !! l = h !! l.
Proof.
  intros E.
  destruct (getTodayUTC_run host h)
    as (now & today & h' & R & F1 & NE & F2 & ->).
  eexists. split.
  - unfold isFutureDate, valueOf.
    erewrite bind_ok by exact R.
    erewrite bind_ok.
    2:{ apply thisTimeValue_ok. rewrite !lookup_insert_ne by congruence.
        exact E. }
    erewrite bind_ok by (apply thisTimeValue_ok, lookup_insert_eq).
    reflexivity.
  - intros l [v Hl]. rewrite !lookup_insert_ne by congruence. done.
Qed.

(** X10. [isFutureDate] never accepts an invalid date, whatever the clock;
    and a date that is not before an accepted date is accepted. *)
Theorem isFutureDate_invalid_and_monotone host h :
  (forall date, h !! date = Some NaN ->
     exists h', isFutureDate host date h = (Ok false, h')) /\
  (forall d1 d2 t1 t2 h1,
     h !! d1 = Some (Num t1) -> h !! d2 = Some (Num t2) -> t1 <= t2 ->
     isFutureDate host d1 h = (Ok true, h1) ->
     exists h2, isFutureDate host d2 h = (Ok true, h2)).
Proof.
  split.
  - intros date E. destruct (isFutureDate_run host h date NaN E) as (h' & R & _).
    by exists h'.
  - intros d1 d2 t1 t2 h1 E1 E2 L R1.
    destruct (isFutureDate_run host h d1 _ E1) as (h1' & R1' & _).
    destruct (isFutureDate_run host h d2 _ E2) as (h2 & R2 & _).
    exists h2. rewrite R2. f_equal. f_equal.
    rewrite R1' in R1. injection R1 as G _.
    destruct (getTodayUTC_value host) as [|b]; [done|].
    cbn [num_ge] in *. apply Z.leb_le in G. apply Z.leb_le. lia.
Qed.

(** X11. Today starts the local day.  [getTodayUTC] returns a new date
    that is either invalid or a UTC midnight; and when the local year is
    not one of 0 to 99 and the midnight is a time value, it is the local
    time of the clock with its time of day taken off. *)
Theorem getTodayUTC_truncates_local_time host h :
  let lt := LocalTime host (clock host) in
  exists v,
    returns_date (getTodayUTC host) h v /\
    (v = NaN \/ exists t, v = Num t /\ TimeWithinDay t = 0) /\
    (~ 0 <= YearFromTime lt <= 99 ->
     in_range (lt - TimeWithinDay lt) ->
     v = Num (lt - TimeWithinDay lt)).
Proof.
  intros lt. exists (getTodayUTC_value host).
  destruct (getTodayUTC_run host h) as (now & today & h' & R & F1 & _ & _ & ->).
  split.
  { exists today. eexists. split; [exact R|].
    split; [exact F1 | apply lookup_insert_eq]. }
  unfold getTodayUTC_value, Date_UTC. fold lt.
  set (y := YearFromTime lt). set (m := MonthFromTime lt).
  set (d := DateFromTime lt).
  assert (Hy : exists y', MakeFullYear (Num y) = Num y' /\
                          (~ 0 <= y <= 99 -> y' = y)).
  { unfold MakeFullYear. destruct ((0 <=? y) && (y <=? 99)) eqn:B.
    - exists (1900 + y). split; [done|].
      apply andb_true_iff in B as [B1 B2].
      apply Z.leb_le in B1, B2. lia.
    - by exists y. }
  destruct Hy as (y' & -> & Hy').
  unfold MakeDay, MakeTime, MakeDate.
  replace (0 * msPerHour + 0 * msPerMinute + 0 * msPerSecond + 0) with 0
    by reflexivity.
  split.
  - destruct (decide (in_range (MakeDayZ y' m d * msPerDay + 0))) as [Hr|Hr].
    + right. exists (MakeDayZ y' m d * msPerDay + 0).
      rewrite !TimeClip_in_range by exact Hr.
      split; [done|]. apply TimeWithinDay_MakeDate. unfold msPerDay. lia.
    + left. by rewrite TimeClip_out_of_range.
  - intros Hn Hr. rewrite (Hy' Hn).
    assert (E : MakeDayZ y m d * msPerDay + 0 = lt - TimeWithinDay lt).
    { pose proof (MakeDayZ_fields lt 0) as F. rewrite !Z.add_0_r in F.
      fold y m d in F. rewrite F.
      pose proof (Day_TimeWithinDay lt). lia. }
    rewrite E. by rewrite !TimeClip_in_range.
Qed.

Lemma getTodayUTC_truncates_local_time_witness :
  exists v,
    returns_date (getTodayUTC eveningHost) ∅ v /\
    (v = NaN \/ exists t, v = Num t /\ TimeWithinDay t = 0).
Proof.
  destruct (getTodayUTC_truncates_local_time eveningHost ∅) as (v & R & M & _).
  exists v. split; [exact R | exact M].
Defined.

End Edges.

(** ** ISO strings: written by [toISOString], read by [Date.parse] *)

Module IsoFacts.
Import Parse ParseFacts.

Lemma forall_range_spec (P : Z -> bool) n lo :
  forall_range P lo n = true ->
  forall k, lo <= k < lo + Z.of_nat n -> P k = true.
Proof.
  revert lo. induction n as [|n IH]; intros lo H k Hk; [lia|].
  cbn [forall_range] in H. apply andb_true_iff in H as [H0 H1].
  destruct (Z.eq_dec k lo) as [->|NE]; [done|].
  apply (IH (lo + 1)); [done | lia].
Qed.

Lemma digits_pad6 y :
  0 <= y <= 275760 -> digits 6 (pad 6 y) = Some (y, EmptyString).
Proof.
  intros H.
  assert (A : forall_range
                (fun k => bool_decide (digits 6 (pad 6 k) = Some (k, EmptyString)))
                0 (Z.to_nat 275761) = true) by (vm_compute; reflexivity).
  eapply bool_decide_eq_true_1, (forall_range_spec _ _ _ A). lia.
Qed.

Lemma digits_pad3 n :
  0 <= n <= 999 -> digits 3 (pad 3 n) = Some (n, EmptyString).
Proof.
  intros H.
  assert (A : forall_range
                (fun k => bool_decide (digits 3 (pad 3 k) = Some (k, EmptyString)))
                0 (Z.to_nat 1000) = true) by (vm_compute; reflexivity).
  eapply bool_decide_eq_true_1, (forall_range_spec _ _ _ A). lia.
Qed.

(** The years of the time-value range. *)
Lemma YearFromTime_in_range t :
  in_range t -> -271821 <= YearFromTime t <= 275760.
Proof.
  intros [Hlo Hhi]. unfold YearFromTime.
  pose proof (YearFromDay_spec (Day t)) as [S1 S2].
  assert (D : -100000000 <= Day t <= 100000000).
  { unfold Day, maxTime, msPerDay in *. dlia. }
  split.
  - destruct (Z.le_gt_cases (-271821) (YearFromDay (Day t))) as [|G]; [done|].
    pose proof (DayFromYear_le (YearFromDay (Day t) + 1) (-271821)) as L.
    change (DayFromYear (-271821)) with (-100000109) in L. lia.
  - destruct (Z.le_gt_cases (YearFromDay (Day t)) 275760) as [|G]; [done|].
    pose proof (DayFromYear_le 275761 (YearFromDay (Day t))) as L.
    change (DayFromYear 275761) with 100000110 in L. lia.
Qed.

Lemma year_plus r : year (String "+" r) = digits 6 r.
Proof. reflexivity. Qed.

Lemma year_minus r :
  year (String "-" r) =
  match digits 6 r with
  | Some (y, r') => if y =? 0 then None else Some (- y, r')
  | None => None
  end.
Proof. reflexivity. Qed.

Lemma year_isoYear y r :
  -271821 <= y <= 275760 -> year (isoYear y +:+ r) = Some (y, r).
Proof.
  intros H. unfold isoYear.
  destruct ((0 <=? y) && (y <=? 9999)) eqn:B.
  - apply andb_true_iff in B as [B1 B2]. apply Z.leb_le in B1, B2.
    assert (Hy : 0 <= y <= 9999) by lia.
    rewrite year_digits; rewrite (digits_app _ _ _ _ (digits_pad4 y Hy)); eauto.
  - destruct (Z.ltb_spec y 0) as [N|N].
    + rewrite append_assoc, append_cons, append_nil, year_minus.
      rewrite (digits_app _ _ _ _ (digits_pad6 (- y) ltac:(lia))).
      replace (- y =? 0) with false by (symmetry; apply Z.eqb_neq; lia).
      by rewrite Z.opp_involutive.
    + assert (9999 < y).
      { apply andb_false_iff in B as [B|B]; apply Z.leb_gt in B; lia. }
      rewrite append_assoc, append_cons, append_nil, year_plus.
      by rewrite (digits_app _ _ _ _ (digits_pad6 y ltac:(lia))).
Qed.

Lemma date_isoDate y m d r :
  -271821 <= y <= 275760 -> 0 <= m <= 99 -> 0 <= d <= 99 ->
  date (isoDate y m d +:+ String "T" r) =
  Some ({| df_year := y; df_month := m; df_day := d |}, String "T" r).
Proof.
  intros Hy Hm Hd. unfold isoDate, date.
  rewrite !append_assoc. rewrite year_isoYear by done.
  rewrite ?append_cons, ?append_nil. cbn [sep_digits Ascii.eqb Bool.eqb].
  rewrite (digits_app _ _ _ _ (digits_pad2 m Hm)).
  rewrite ?append_cons, ?append_nil. cbn [sep_digits Ascii.eqb Bool.eqb].
  rewrite (digits_app _ _ _ _ (digits_pad2 d Hd)).
  reflexivity.
Qed.

Lemma time_iso hh mi ss ms r :
  0 <= hh <= 99 -> 0 <= mi <= 99 -> 0 <= ss <= 99 -> 0 <= ms <= 999 ->
  time (pad 2 hh +:+ ":" +:+ pad 2 mi +:+ ":" +:+ pad 2 ss +:+ "." +:+
        pad 3 ms +:+ r) =
  Some ({| tf_hour := hh; tf_min := mi; tf_sec := ss; tf_ms := ms |}, r).
Proof.
  intros Hh Hm Hs Hms. unfold time.
  rewrite (digits_app _ _ _ _ (digits_pad2 hh Hh)).
  rewrite ?append_cons, ?append_nil. cbn [sep_digits Ascii.eqb Bool.eqb].
  rewrite (digits_app _ _ _ _ (digits_pad2 mi Hm)).
  rewrite ?append_cons, ?append_nil. cbn [sep_digits Ascii.eqb Bool.eqb].
  rewrite (digits_app _ _ _ _ (digits_pad2 ss Hs)).
  rewrite ?append_cons, ?append_nil.
  rewrite (digits_app _ _ _ _ (digits_pad3 ms Hms)).
  reflexivity.
Qed.

(** The string [toISOString] writes for the time value [t]. *)
Lemma toISOString_run h l t :
  h !! l = Some (Num t) ->
  toISOString l h =
  (Ok (isoDate (YearFromTime t) (MonthFromTime t + 1) (DateFromTime t) +:+
       String "T"
         (pad 2 (TimeWithinDay t / msPerHour) +:+ ":" +:+
          pad 2 (TimeWithinDay t / msPerMinute mod 60) +:+ ":" +:+
          pad 2 (TimeWithinDay t / msPerSecond mod 60) +:+ "." +:+
          pad 3 (TimeWithinDay t mod msPerSecond) +:+ "Z")), h).
Proof.
  intros E. unfold toISOString.
  erewrite bind_ok by (by apply thisTimeValue_ok).
  unfold isoDate. cbv zeta. unfold mret, M_ret. do 2 f_equal.
  rewrite !append_assoc. rewrite ?append_cons, ?append_nil. reflexivity.
Qed.

Lemma Date_parse_iso host t :
  in_range t ->
  Date_parse host
    (isoDate (YearFromTime t) (MonthFromTime t + 1) (DateFromTime t) +:+
     String "T"
       (pad 2 (TimeWithinDay t / msPerHour) +:+ ":" +:+
        pad 2 (TimeWithinDay t / msPerMinute mod 60) +:+ ":" +:+
        pad 2 (TimeWithinDay t / msPerSecond mod 60) +:+ "." +:+
        pad 3 (TimeWithinDay t mod msPerSecond) +:+ "Z")) = Num t.
Proof.
  intros Hr.
  pose proof (YearFromTime_in_range t Hr) as Hy.
  pose proof (MonthFromTime_range t) as Hm.
  pose proof (DateFromTime_range t) as Hd.
  pose proof (DaysInMonth_bounds (YearFromTime t) (MonthFromTime t)) as Hdim.
  pose proof (TimeWithinDay_bounds t) as Htod.
  set (tod := TimeWithinDay t) in *.
  unfold Date_parse, iso.
  rewrite date_isoDate by lia.
  rewrite time_iso by (unfold msPerDay, msPerHour, msPerMinute, msPerSecond in *; dlia).
  change (offset "Z") with (Some (Some 0)).
  replace (legal_date _) with true.
  2:{ symmetry. unfold legal_date. cbn [df_year df_month df_day].
      replace (MonthFromTime t + 1 - 1) with (MonthFromTime t) by lia.
      repeat (apply andb_true_intro; split); apply Z.leb_le; lia. }
  replace (legal_time _) with true.
  2:{ symmetry. unfold legal_time. cbn [tf_hour tf_min tf_sec tf_ms].
      apply orb_true_iff. left.
      repeat (apply andb_true_intro; split); apply Z.leb_le;
        unfold msPerDay, msPerHour, msPerMinute, msPerSecond in *; dlia. }
  cbn [andb].
  unfold utc_instant, MakeDay, MakeTime, MakeDate, num_add.
  cbn [df_year df_month df_day tf_hour tf_min tf_sec tf_ms].
  replace (MonthFromTime t + 1 - 1) with (MonthFromTime t) by lia.
  pose proof (MakeDayZ_fields t 0) as F. rewrite !Z.add_0_r in F. rewrite F.
  pose proof (Day_TimeWithinDay t) as DT. fold tod in DT.
  match goal with
  | |- TimeClip (Num ?a) = _ => replace a with t
  end.
  - by apply TimeClip_in_range.
  - rewrite DT at 1. clear F DT Hr.
    unfold msPerDay, msPerHour, msPerMinute, msPerSecond in *.
    generalize (Day t). intros dd. clearbody tod. dlia.
Qed.

End IsoFacts.

Section Iso.
Import Parse ParseFacts IsoFacts.
Implicit Types (h : gmap loc Number) (date : loc) (tv : Number) (host : Host).

(** X12. What [toISOString] writes, [Date.parse] reads back: for every
    valid date the string parses, on any host, to the time value of the
    date. *)
Theorem toISOString_parses_back host h date t :
  h !! date = Some (Num t) -> in_range t ->
  exists s, toISOString date h = (Ok s, h) /\ Date_parse host s = Num t.
Proof.
  intros E Hr. eexists. split; [by apply toISOString_run|].
  by apply Date_parse_iso.
Qed.

Lemma toISOString_parses_back_witness :
  ({[1%positive := Num 1784419200000]} : gmap loc Number) !! 1%positive
    = Some (Num 1784419200000) /\
  in_range 1784419200000 /\
  exists s, toISOString 1%positive {[1%positive := Num 1784419200000]}
              = (Ok s, {[1%positive := Num 1784419200000]}) /\
            Date_parse strictHost s = Num 1784419200000.
Proof.
  assert (E : ({[1%positive := Num 1784419200000]} : gmap loc Number)
               !! 1%positive = Some (Num 1784419200000)) by reflexivity.
  assert (Hr : in_range 1784419200000) by (vm_compute; split; discriminate).
  split; [exact E|]. split; [exact Hr|].
  exact (toISOString_parses_back strictHost _ _ _ E Hr).
Defined.

Lemma mapM_items topicName startDate h (ls : list loc) (vs : list Z) :
  Forall2 (fun l v => h !! l = Some (Num v) /\ in_range v) ls vs ->
  exists items,
    mapM (fun d =>
            iso ← toISOString d;
            mret {| item_topic := topicName; item_date := iso;
                    item_startDate := startDate |}) ls h = (Ok items, h) /\
    Forall2 (fun v it =>
               item_topic it = topicName /\ item_startDate it = startDate /\
               forall host, itemTime host it = Num v) vs items.
Proof.
  induction 1 as [|l v ls vs [E Hr] _ (items & R & F)].
  - exists []. split; [reflexivity | constructor].
  - eexists (_ :: items). split.
    + cbn [mapM]. erewrite bind_ok.
      2:{ erewrite bind_ok by (by apply toISOString_run). reflexivity. }
      erewrite bind_ok by exact R. reflexivity.
    + constructor; [|exact F].
      split; [reflexivity|]. split; [reflexivity|].
      intros host. unfold itemTime. cbn [item_date].
      by apply Date_parse_iso.
Qed.

(** X13. The records stored for a topic hold the schedule: when the five
    revision dates are valid, [agendaItems] returns five records with the
    topic and the start date given, and the date string of each record
    parses back, on any host, to the revision date it was made from. *)
Theorem agendaItems_hold_schedule host topicName s h t :
  Date_parse host (s +:+ "T00:00:00.000Z") = Num t ->
  in_range t ->
  in_range (MakeDayZ (YearFromTime t + 1) (MonthFromTime t) (DateFromTime t)
            * msPerDay + TimeWithinDay t) ->
  exists ls h' vs items,
    calculateRevisionDates host s h = (Ok ls, h') /\
    Forall2 (fun l v => h' !! l = Some (Num v)) ls vs /\
    agendaItems host topicName s h = (Ok items, h') /\
    length items = 5%nat /\
    Forall2 (fun v it =>
               item_topic it = topicName /\ item_startDate it = s /\
               forall host', itemTime host' it = Num v) vs items.
Proof.
  intros P Ht Hlast.
  destruct (schedule_values host s h t P Ht Hlast)
    as (l1 & l2 & l3 & l4 & l5 & h' & v1 & v2 & v3 & v4 & v5 & R & V1 & V2
        & V3 & V4 & V5 & O1 & O2 & O3 & [_ Hr] & _).
  destruct Ht as [Hlo _].
  assert (F : Forall2 (fun l v => h' !! l = Some (Num v) /\ in_range v)
                [l1; l2; l3; l4; l5] [v1; v2; v3; v4; v5]).
  { repeat (apply Forall2_cons_2;
            [split; [assumption | unfold in_range; lia]|]).
    apply Forall2_nil_2. }
  destruct (mapM_items topicName s h' _ _ F) as (items & RI & FI).
  exists [l1; l2; l3; l4; l5], h', [v1; v2; v3; v4; v5], items.
  split; [exact R|]. split.
  { eapply Forall2_impl; [exact F|]. by intros l v [? _]. }
  split.
  { unfold agendaItems. erewrite bind_ok by exact R. exact RI. }
  split; [|exact FI].
  apply Forall2_length in FI. by rewrite <- FI.
Qed.

Lemma agendaItems_hold_schedule_witness :
  Date_parse strictHost ("2026-07-19" +:+ "T00:00:00.000Z")
    = Num 1784419200000 /\
  exists ls h' vs items,
    calculateRevisionDates strictHost "2026-07-19" ∅ = (Ok ls, h') /\
    Forall2 (fun l v => h' !! l = Some (Num v)) ls vs /\
    agendaItems strictHost "JS" "2026-07-19" ∅ = (Ok items, h') /\
    length items = 5%nat /\
    Forall2 (fun v it =>
               item_topic it = "JS"%string /\
               item_startDate it = "2026-07-19"%string /\
               forall host', itemTime host' it = Num v) vs items.
Proof.
  assert (P : Date_parse strictHost ("2026-07-19" +:+ "T00:00:00.000Z")
              = Num 1784419200000) by reflexivity.
  split; [exact P|].
  apply (agendaItems_hold_schedule strictHost "JS" _ ∅ _ P);
    vm_compute; split; discriminate.
Defined.

Lemma before_T_digits n s v r :
  digits n s = Some (v, EmptyString) ->
  before_T (s +:+ r) = s +:+ before_T r.
Proof.
  revert s v. induction n as [|n IH]; intros s v.
  - cbn [digits]. intros [= <- ->]. reflexivity.
  - destruct s as [|c s]; [done|]. cbn [digits].
    destruct (digit c) as [dv|] eqn:Ed; [|done].
    destruct (digits n s) as [[w r']|] eqn:E; [|done].
    intros [= <- ->]. rewrite !append_cons. cbn [before_T].
    assert (Ascii.eqb c "T" = false) as ->.
    { apply Ascii.eqb_neq. intros ->. vm_compute in Ed. done. }
    f_equal. by apply (IH _ _ E).
Qed.

Lemma before_T_isoYear y r :
  -271821 <= y <= 275760 ->
  before_T (isoYear y +:+ r) = isoYear y +:+ before_T r.
Proof.
  intros H. unfold isoYear.
  destruct ((0 <=? y) && (y <=? 9999)) eqn:B.
  - apply andb_true_iff in B as [B1 B2]. apply Z.leb_le in B1, B2.
    apply (before_T_digits 4 _ y), digits_pad4. lia.
  - destruct (Z.ltb_spec y 0) as [N|N].
    + rewrite !append_assoc, !append_cons, !append_nil. cbn [before_T].
      change (Ascii.eqb "-" "T") with false. cbv iota. f_equal.
      apply (before_T_digits 6 _ (- y)), digits_pad6. lia.
    + rewrite !append_assoc, !append_cons, !append_nil. cbn [before_T].
      change (Ascii.eqb "+" "T") with false. cbv iota. f_equal.
      apply (before_T_digits 6 _ y), digits_pad6. lia.
Qed.

Lemma before_T_isoDate y m d r :
  -271821 <= y <= 275760 -> 0 <= m <= 99 -> 0 <= d <= 99 ->
  before_T (isoDate y m d +:+ String "T" r) = isoDate y m d.
Proof.
  intros Hy Hm Hd. unfold isoDate. rewrite !append_assoc.
  rewrite before_T_isoYear by done. f_equal.
  rewrite !append_cons, !append_nil. cbn [before_T].
  change (Ascii.eqb "-" "T") with false. cbv iota. f_equal.
  rewrite (before_T_digits 2 _ m) by (by apply digits_pad2). f_equal.
  cbn [before_T]. change (Ascii.eqb "-" "T") with false. cbv iota. f_equal.
  rewrite (before_T_digits 2 _ d) by (by apply digits_pad2).
  cbn [before_T]. change (Ascii.eqb "T" "T") with true. cbv iota.
  clear. induction (pad 2 d) as [|c s IH]; [reflexivity|].
  rewrite append_cons. by f_equal.
Qed.

Lemma Date_parse_isoDate host y m d :
  -271821 <= y <= 275760 -> 1 <= m <= 12 -> 1 <= d <= DaysInMonth y (m - 1) ->
  Date_parse host (isoDate y m d +:+ "T00:00:00.000Z") =
  TimeClip (Num (utcMidnight y (m - 1) d)).
Proof.
  intros Hy Hm Hd. pose proof (DaysInMonth_bounds y (m - 1)).
  unfold Date_parse, iso.
  rewrite (date_isoDate y m d "00:00:00.000Z") by lia.
  rewrite time_midnight_Z. change (offset "Z") with (Some (Some 0)).
  replace (legal_date _) with true.
  2:{ symmetry. unfold legal_date. cbn [df_year df_month df_day].
      repeat (apply andb_true_intro; split); apply Z.leb_le; lia. }
  change (legal_time midnight) with true. cbn [andb].
  unfold utc_instant, midnight, MakeDay, MakeTime, MakeDate, num_add,
    utcMidnight.
  cbn [df_year df_month df_day tf_hour tf_min tf_sec tf_ms].
  do 2 f_equal. lia.
Qed.

Lemma getTodayString_run host h :
  in_range (clock host) ->
  let t := clock host in
  exists h',
    getTodayString host h =
      (Ok (isoDate (YearFromTime t) (MonthFromTime t + 1) (DateFromTime t)), h').
Proof.
  intros Hr t.
  pose proof (YearFromTime_in_range t Hr) as Hy.
  pose proof (MonthFromTime_range t) as Hm.
  pose proof (DateFromTime_range t) as Hd.
  pose proof (DaysInMonth_bounds (YearFromTime t) (MonthFromTime t)) as Hdim.
  eexists. unfold getTodayString, new_Date_now.
  erewrite (bind_ok (alloc _)) by reflexivity.
  erewrite bind_ok by (apply toISOString_run, lookup_insert_eq).
  fold t. unfold mret, M_ret. f_equal. f_equal.
  apply before_T_isoDate; lia.
Qed.

Lemma Date_parse_today host :
  in_range (clock host) ->
  let t := clock host in
  Date_parse host
    (isoDate (YearFromTime t) (MonthFromTime t + 1) (DateFromTime t)
     +:+ "T00:00:00.000Z") = Num (Day t * msPerDay).
Proof.
  intros Hr t.
  pose proof (YearFromTime_in_range t Hr) as Hy.
  pose proof (MonthFromTime_range t) as Hm.
  pose proof (DateFromTime_range t) as Hd.
  rewrite Date_parse_isoDate; rewrite ?Z.add_simpl_r; [|lia|lia|lia].
  unfold utcMidnight.
  pose proof (MakeDayZ_fields t 0) as F. rewrite !Z.add_0_r in F. rewrite F.
  apply TimeClip_in_range.
  destruct Hr as [Hlo Hhi].
  unfold in_range, Day, maxTime, msPerDay in *. dlia.
Qed.

(** X14. The default start date of the form.  [getTodayString] returns
    the UTC calendar date of the clock as [YYYY-MM-DD] (with a sign and six
    digits for a year outside of 0 to 9999), and this string, given to
    [calculateRevisionDates], parses to UTC midnight of that day. *)
Theorem getTodayString_is_UTC_date host h :
  in_range (clock host) ->
  let t := clock host in
  exists h',
    getTodayString host h =
      (Ok (isoDate (YearFromTime t) (MonthFromTime t + 1) (DateFromTime t)), h')
    /\
    Date_parse host
      (isoDate (YearFromTime t) (MonthFromTime t + 1) (DateFromTime t)
       +:+ "T00:00:00.000Z") = Num (t - TimeWithinDay t).
Proof.
  intros Hr t.
  destruct (getTodayString_run host h Hr) as (h' & R).
  exists h'. split; [exact R|].
  pose proof (Date_parse_today host Hr) as P. cbv zeta in P. fold t in P.
  rewrite P. f_equal. pose proof (Day_TimeWithinDay t). lia.
Qed.

Lemma getTodayString_is_UTC_date_witness :
  in_range (clock eveningHost) /\
  exists h',
    getTodayString eveningHost ∅ = (Ok "2026-07-19"%string, h').
Proof.
  assert (Hr : in_range (clock eveningHost)) by (vm_compute; split; discriminate).
  split; [exact Hr|].
  destruct (getTodayString_is_UTC_date eveningHost ∅ Hr) as (h' & R & _).
  exists h'. exact R.
Defined.

End Iso.

(** ** Escaping topics *)

Module EscapeFacts.
Import ParseFacts.

Lemma append_nil_r (s : string) : s +:+ EmptyString = s.
Proof.
  induction s as [|c s IH]; [reflexivity|].
  rewrite append_cons. by f_equal.
Qed.

Lemma replace_all_app c by_ (a b : string) :
  replace_all c by_ (a +:+ b) = replace_all c by_ a +:+ replace_all c by_ b.
Proof.
  induction a as [|x a IH]; [reflexivity|].
  rewrite append_cons. cbn [replace_all]. rewrite IH.
  destruct (Ascii.eqb x c).
  - by rewrite append_assoc.
  - by rewrite append_cons.
Qed.

Lemma escapeHtml_app (a b : string) :
  escapeHtml (a +:+ b) = escapeHtml a +:+ escapeHtml b.
Proof. unfold escapeHtml. by rewrite !replace_all_app. Qed.

Lemma escapeHtml_single c :
  escapeHtml (String c EmptyString) = escapeChar c.
Proof. destruct c as [[] [] [] [] [] [] [] []]; reflexivity. Qed.

Lemma escapeHtml_cons c (s : string) :
  escapeHtml (String c s) = escapeChar c +:+ escapeHtml s.
Proof.
  change (String c s) with (String c EmptyString +:+ s).
  by rewrite escapeHtml_app, escapeHtml_single.
Qed.

Lemma escapeChar_cases c :
  (isHtmlSpecial c = false /\ escapeChar c = String c EmptyString) \/
  (isHtmlSpecial c = true /\
   ((c = "&"%char /\ escapeChar c = "&amp;"%string) \/
    (c = "<"%char /\ escapeChar c = "&lt;"%string) \/
    (c = ">"%char /\ escapeChar c = "&gt;"%string) \/
    (c = dquote /\ escapeChar c = "&quot;"%string) \/
    (c = "'"%char /\ escapeChar c = "&#039;"%string))).
Proof.
  destruct c as [[] [] [] [] [] [] [] []];
    first [ left; split; reflexivity
          | right; split; [reflexivity|]; 
            first [ left; split; reflexivity
                  | right; left; split; reflexivity
                  | right; right; left; split; reflexivity
                  | right; right; right; left; split; reflexivity
                  | right; right; right; right; split; reflexivity ] ].
Qed.

End EscapeFacts.

Section Escape.
Import ParseFacts EscapeFacts.

(** X15. [escapeHtml] works character by character: the five replacements
    in a row never touch what an earlier one has written, so the result is
    the entity of each special character and every other character as it
    is; escaping a concatenation is concatenating the escapes. *)
Theorem escapeHtml_charwise (s1 s2 : string) :
  escapeHtml s1 = flat_map_string escapeChar s1 /\
  escapeHtml (s1 +:+ s2) = escapeHtml s1 +:+ escapeHtml s2.
Proof.
  split; [|apply escapeHtml_app].
  induction s1 as [|c s IH]; [reflexivity|].
  rewrite escapeHtml_cons, IH. reflexivity.
Qed.

(** X16. The escaped text holds none of the characters [<], [>], the
    double quote and the single quote. *)
Theorem escapeHtml_no_markup (s : string) :
  Forall (fun c => c <> "<"%char /\ c <> ">"%char /\ c <> dquote /\
                   c <> "'"%char)
         (list_ascii_of_string (escapeHtml s)).
Proof.
  induction s as [|c s IH]; [constructor|].
  rewrite escapeHtml_cons.
  destruct (escapeChar_cases c)
    as [[N ->] | [_ [[-> ->] | [[-> ->] | [[-> ->] | [[-> ->] | [-> ->]]]]]]];
    rewrite ?append_cons, ?append_nil; cbn [list_ascii_of_string];
    repeat (apply Forall_cons_2; [by repeat split|]); try exact IH.
  apply Forall_cons_2; [|exact IH].
  unfold isHtmlSpecial in N.
  repeat (apply orb_false_iff in N as [N ?]).
  repeat split; intros ->; discriminate.
Qed.

(** X17. Plain text is left as it is, and only plain text: [escapeHtml s]
    is [s] exactly when [s] holds none of the five special characters;
    otherwise the result is longer. *)
Theorem escapeHtml_identity_iff (s : string) :
  (escapeHtml s = s <->
   Forall (fun c => isHtmlSpecial c = false) (list_ascii_of_string s)) /\
  (String.length s <= String.length (escapeHtml s))%nat.
Proof.
  assert (L : (String.length s <= String.length (escapeHtml s))%nat /\
              (Exists (fun c => isHtmlSpecial c = true) (list_ascii_of_string s) ->
               (String.length s < String.length (escapeHtml s))%nat)).
  { induction s as [|c s [IH1 IH2]].
    - split; [done|]. intros H. inversion H.
    - rewrite escapeHtml_cons, length_append. cbn [String.length].
      destruct (escapeChar_cases c)
        as [[N ->] | [S [[-> ->] | [[-> ->] | [[-> ->] | [[-> ->] | [-> ->]]]]]]];
        cbn [String.length list_ascii_of_string]; (split; [lia|]);
        intros H; try lia.
      apply Exists_cons in H as [H|H]; [congruence|].
      specialize (IH2 H). lia. }
  split; [|apply L]. split.
  - intros E. destruct L as [_ L].
    assert (D : Forall (fun c => isHtmlSpecial c = false)
                  (list_ascii_of_string s) \/
                Exists (fun c => isHtmlSpecial c = true)
                  (list_ascii_of_string s)).
    { generalize (list_ascii_of_string s). intros l.
      induction l as [|c l [IH|IH]].
      - left. constructor.
      - destruct (isHtmlSpecial c) eqn:S.
        + right. by apply Exists_cons_hd.
        + left. by constructor.
      - right. by apply Exists_cons_tl. }
    destruct D as [D|D]; [exact D|].
    specialize (L D). rewrite E in L. lia.
  - clear L. induction s as [|c s IH]; [reflexivity|].
    cbn [list_ascii_of_string]. intros H. apply Forall_cons in H as [N H].
    rewrite escapeHtml_cons, (IH H).
    destruct (escapeChar_cases c) as [[_ ->] | [S _]]; [reflexivity|congruence].
Qed.

(** X18. Escaping loses nothing: two topics with the same escaped text are
    the same topic. *)
Theorem escapeHtml_injective (s1 s2 : string) :
  escapeHtml s1 = escapeHtml s2 -> s1 = s2.
Proof.
  revert s2. induction s1 as [|c1 s1 IH]; intros [|c2 s2].
  - done.
  - rewrite escapeHtml_cons. change (escapeHtml "") with EmptyString.
    destruct (escapeChar_cases c2)
      as [[_ ->] | [_ [[_ ->] | [[_ ->] | [[_ ->] | [[_ ->] | [_ ->]]]]]]];
      rewrite ?append_cons; discriminate.
  - rewrite escapeHtml_cons. change (escapeHtml "") with EmptyString.
    destruct (escapeChar_cases c1)
      as [[_ ->] | [_ [[_ ->] | [[_ ->] | [[_ ->] | [[_ ->] | [_ ->]]]]]]];
      rewrite ?append_cons; discriminate.
  - rewrite !escapeHtml_cons. intros E.
    assert (c1 = c2 /\ escapeHtml s1 = escapeHtml s2) as [-> E'].
    { revert E. generalize (escapeHtml s1) (escapeHtml s2). intros x y.
      destruct (escapeChar_cases c1)
        as [[N1 ->] | [S1 [[-> ->] | [[-> ->] | [[-> ->] | [[-> ->] | [-> ->]]]]]]];
      destruct (escapeChar_cases c2)
        as [[N2 ->] | [S2 [[-> ->] | [[-> ->] | [[-> ->] | [[-> ->] | [-> ->]]]]]]];
      rewrite ?append_cons, ?append_nil; intros E; simplify_eq;
      first [ done
            | exfalso; vm_compute in N1; discriminate N1
            | exfalso; vm_compute in N2; discriminate N2 ]. }
    f_equal. by apply IH.
Qed.

Lemma escapeHtml_injective_witness :
  escapeHtml "a<b" = escapeHtml "a<b" /\ ("a<b" = "a<b")%string.
Proof.
  assert (E : escapeHtml "a<b" = escapeHtml "a<b") by reflexivity.
  split; [exact E|]. exact (escapeHtml_injective _ _ E).
Defined.

End Escape.

(** ** The two notions of today, and the ten-year check *)

Section TodayAgain.
Import Parse ParseFacts IsoFacts.
Implicit Types (h : gmap loc Number) (date : loc) (tv : Number) (host : Host).

Lemma TimeClip_Num_inv v t : TimeClip v = Num t -> v = Num t /\ in_range t.
Proof.
  destruct v as [|x]; [done|]. unfold TimeClip.
  destruct (Z.ltb_spec maxTime (Z.abs x)); [done|].
  intros [= ->]. split; [done|]. unfold in_range. lia.
Qed.

Lemma getTodayUTC_value_in_range host t :
  getTodayUTC_value host = Num t -> in_range t.
Proof. intros E. by apply TimeClip_Num_inv in E as [_ ?]. Qed.

Lemma getTodayUTC_value_local_day host :
  let lt := LocalTime host (clock host) in
  ~ 0 <= YearFromTime lt <= 99 ->
  in_range (Day lt * msPerDay) ->
  getTodayUTC_value host = Num (Day lt * msPerDay).
Proof.
  intros lt Hy Hr. unfold getTodayUTC_value. fold lt.
  rewrite Date_UTC_midnight.
  - unfold utcMidnight.
    pose proof (MakeDayZ_fields lt 0) as F. rewrite !Z.add_0_r in F.
    rewrite F. by apply TimeClip_in_range.
  - exact Hy.
  - unfold utcMidnight.
    pose proof (MakeDayZ_fields lt 0) as F. rewrite !Z.add_0_r in F.
    by rewrite F.
Qed.

(** X19. The two notions of today.  [getTodayUTC] is midnight of the
    local calendar day, the default start date [getTodayString] is the UTC
    calendar day: read as a start date, the default is today exactly when
    the local day and the UTC day of the clock are the same day, and it is
    before today when the local day is ahead. *)
Theorem two_todays host h :
  let t := clock host in
  let lt := LocalTime host t in
  in_range t ->
  ~ 0 <= YearFromTime lt <= 99 ->
  in_range (Day lt * msPerDay) ->
  exists s h1 today h2 start,
    getTodayString host h = (Ok s, h1) /\
    Date_parse host (s +:+ "T00:00:00.000Z") = Num start /\
    getTodayUTC host h = (Ok today, h2) /\
    (h2 !! today = Some (Num start) <-> Day lt = Day t) /\
    (num_ge (Num start) (getTodayUTC_value host) = true <-> Day lt <= Day t).
Proof.
  intros t lt Hr Hy Hrl.
  destruct (getTodayString_run host h Hr) as (h1 & RS). fold t in RS.
  pose proof (Date_parse_today host Hr) as PS. fold t in PS.
  pose proof (getTodayUTC_value_local_day host Hy Hrl) as VT. fold t lt in VT.
  destruct (getTodayUTC_run host h) as (now & today & h2 & R & _ & _ & _ & ->).
  eexists _, h1, today, _, (Day t * msPerDay).
  split; [exact RS|]. split; [exact PS|]. split; [exact R|].
  rewrite lookup_insert_eq, VT. cbn [num_ge]. unfold msPerDay. split.
  - split.
    + intros [= E]. lia.
    + intros ->. reflexivity.
  - rewrite Z.leb_le. lia.
Qed.

Lemma two_todays_witness :
  in_range (clock eveningHost) /\
  exists s h1 start,
    getTodayString eveningHost ∅ = (Ok s, h1) /\
    Date_parse eveningHost (s +:+ "T00:00:00.000Z") = Num start /\
    (num_ge (Num start) (getTodayUTC_value eveningHost) = true <->
     Day (LocalTime eveningHost (clock eveningHost)) <= Day (clock eveningHost)).
Proof.
  assert (Hr : in_range (clock eveningHost)) by (vm_compute; split; discriminate).
  split; [exact Hr|].
  destruct (two_todays eveningHost ∅ Hr)
    as (s & h1 & today & h2 & start & RS & PS & _ & _ & G).
  - vm_compute. intros [_ H]. apply H. reflexivity.
  - vm_compute. split; discriminate.
  - exists s, h1, start. split; [exact RS|]. split; [exact PS | exact G].
Defined.

(** On the evening host the default start date is the day before today. *)
Example default_start_before_today :
  fst (getTodayString eveningHost ∅) = Ok "2026-07-19"%string /\
  getTodayUTC_value eveningHost = Date_parse eveningHost "2026-07-20T00:00:00.000Z".
Proof. split; reflexivity. Qed.

Lemma startDateTooOld_run host value h :
  exists h',
    startDateTooOld host value h =
      (Ok (num_lt (Date_parse host (value +:+ "T00:00:00.000Z"))
                  (addYears_value (getTodayUTC_value host) (Num (-10)))), h')
    /\ forall l, is_Some (h !! l) -> h' !! l = h !! l.
Proof.
  unfold startDateTooOld, new_Date_string, valueOf.
  set (sel := Date_parse host (value +:+ "T00:00:00.000Z")).
  set (l0 := fresh (dom h)). set (h0 := <[l0 := sel]> h).
  erewrite (bind_ok (alloc sel)) by reflexivity. fold l0 h0.
  destruct (getTodayUTC_run host h0)
    as (now & today & h1 & R & F1 & NE & F2 & ->).
  erewrite bind_ok by exact R.
  set (h1 := <[today := _]> _).
  erewrite bind_ok by (apply addYears_run, lookup_insert_eq).
  set (l2 := fresh (dom h1)).
  pose proof (fresh_None h) as F0. fold l0 in F0.
  pose proof (fresh_None h1) as F3. fold l2 in F3.
  unfold h1 in F3. unfold h0 in F1, F2, F3.
  repeat match goal with
         | H : <[_:=_]> _ !! _ = None |- _ => apply lookup_insert_None in H
         | H : _ /\ _ |- _ => destruct H
         end.
  erewrite bind_ok.
  2:{ apply thisTimeValue_ok. unfold h1, h0.
      rewrite !lookup_insert_ne by congruence. apply lookup_insert_eq. }
  erewrite bind_ok by (apply thisTimeValue_ok, lookup_insert_eq).
  eexists. split; [reflexivity|].
  intros l [v Hl]. unfold h1, h0.
  rewrite !lookup_insert_ne by congruence. done.
Qed.

(** X20. The ten-year check of the start date.  It never rejects a start
    date that does not parse (such a date goes on to the schedule), nor a
    date within 3650 days before today or later; when today is valid and
    3660 days before today is a time value, it rejects every date more
    than 3660 days before today. *)
Theorem startDateTooOld_window host value h :
  let sel := Date_parse host (value +:+ "T00:00:00.000Z") in
  exists b h',
    startDateTooOld host value h = (Ok b, h') /\
    (sel = NaN -> b = false) /\
    (getTodayUTC_value host = NaN -> b = false) /\
    (forall a td, sel = Num a -> getTodayUTC_value host = Num td ->
       (td - days 3650 <= a -> b = false) /\
       (in_range (td - days 3660) -> a < td - days 3660 -> b = true)).
Proof.
  intros sel.
  destruct (startDateTooOld_run host value h) as (h' & R & _). fold sel in R.
  clearbody sel.
  eexists _, h'. split; [exact R|].
  split; [by intros ->|].
  split; [intros ->; by destruct sel|].
  intros a td -> Etd. rewrite Etd.
  pose proof (getTodayUTC_value_in_range host td Etd) as [Hlo Hhi].
  rewrite addYears_value_Num.
  pose proof (MonthFromTime_range td) as Hm.
  pose proof (MakeDayZ_years_bounds (YearFromTime td + -10) (MonthFromTime td)
                (DateFromTime td) 10 Hm ltac:(lia)) as B.
  replace (YearFromTime td + -10 + 10) with (YearFromTime td) in B by lia.
  pose proof (MakeDayZ_fields td 0) as F. rewrite !Z.add_0_r in F.
  rewrite F in B.
  pose proof (Day_TimeWithinDay td) as DT.
  set (c := MakeDayZ (YearFromTime td + -10) (MonthFromTime td)
              (DateFromTime td)) in *. clearbody c.
  pose proof (TimeWithinDay_bounds td) as Htod.
  set (tod := TimeWithinDay td) in *. clearbody tod.
  set (dd := Day td) in *. clearbody dd.
  unfold days, maxTime, msPerDay in *.
  split.
  - intros L.
    destruct (TimeClip (Num (c * 86400000 + tod))) as [|x] eqn:Ec; [done|].
    apply TimeClip_Num_inv in Ec as [[= <-] _].
    cbn [num_lt]. apply Z.ltb_ge. lia.
  - intros [Hr _] L. unfold maxTime in Hr.
    rewrite TimeClip_in_range by (unfold in_range, maxTime; lia).
    cbn [num_lt]. apply Z.ltb_lt. lia.
Qed.

End TodayAgain.

(** ** The agenda *)

Section Agenda.
Implicit Types (h : gmap loc Number) (host : Host) (item : AgendaItem).

Lemma yields_ret {A} (a : A) : yields (mret a) a.
Proof. intros h. exists h. split; [reflexivity | done]. Qed.

Lemma yields_bind {A B} (c : M A) (f : A -> M B) a b :
  yields c a -> yields (f a) b -> yields (c ≫= f) b.
Proof.
  intros Hc Hf h. destruct (Hc h) as (h1 & R1 & P1).
  destruct (Hf h1) as (h2 & R2 & P2). exists h2. split.
  - by erewrite bind_ok by exact R1.
  - intros l Hl. rewrite P2; [by apply P1|]. by rewrite P1.
Qed.

(** A date made for the occasion: what is computed from it does not depend
    on the heap. *)
Lemma yields_alloc {A} (v : Number) (f : loc -> M A) a :
  (forall h l, h !! l = Some v ->
     exists h', f l h = (Ok a, h') /\
                forall l', is_Some (h !! l') -> h' !! l' = h !! l') ->
  yields (l ← alloc v; f l) a.
Proof.
  intros Hf h.
  destruct (Hf (<[fresh (dom h) := v]> h) (fresh (dom h)))
    as (h' & R & P); [apply lookup_insert_eq|].
  exists h'. split.
  - by erewrite (bind_ok (alloc v)) by reflexivity.
  - intros l Hl. rewrite P; [by apply lookup_alloc_old|].
    by rewrite lookup_alloc_old.
Qed.

Lemma isFutureItem_yields host item :
  yields (isFutureItem host item)
         (num_ge (itemTime host item) (getTodayUTC_value host)).
Proof.
  unfold isFutureItem, new_Date_string. apply yields_alloc.
  intros h l E. by apply isFutureDate_run.
Qed.

Lemma compareItems_yields host (a b : AgendaItem) :
  yields (compareItems host a b)
         (num_sub (itemTime host a) (itemTime host b)).
Proof.
  unfold compareItems, new_Date_string. apply yields_alloc.
  intros h la Ea.
  set (lb := fresh (dom h)). set (h1 := <[lb := itemTime host b]> h).
  exists h1. split.
  - erewrite (bind_ok (alloc _)) by reflexivity. fold lb. unfold valueOf.
    erewrite bind_ok by (apply thisTimeValue_ok; by apply lookup_alloc).
    erewrite bind_ok by (apply thisTimeValue_ok, lookup_insert_eq).
    reflexivity.
  - intros l Hl. by apply lookup_alloc_old.
Qed.

Lemma agendaItemHTML_yields host item :
  yields (agendaItemHTML host item)
         (agendaItemTemplate (formatDate_value (itemTime host item))
                             (escapeHtml (item_topic item))).
Proof.
  unfold agendaItemHTML, new_Date_string. apply yields_alloc.
  intros h l E. exists h. split; [|done].
  by erewrite bind_ok by (by apply formatDate_run).
Qed.

Lemma filterM_yields {A} (f : A -> M bool) (p : A -> bool) (l : list A) :
  (forall x, yields (f x) (p x)) -> yields (filterM f l) (List.filter p l).
Proof.
  intros Hf. induction l as [|x l IH]; [apply yields_ret|].
  cbn [filterM List.filter].
  eapply yields_bind; [apply Hf|].
  eapply yields_bind; [apply IH|].
  destruct (p x); apply yields_ret.
Qed.

Lemma mapM_yields {A B} (f : A -> M B) (g : A -> B) (l : list A) :
  (forall x, yields (f x) (g x)) -> yields (mapM f l) (g <$> l).
Proof.
  intros Hf. induction l as [|x l IH]; [apply yields_ret|].
  cbn [mapM]. eapply yields_bind; [apply Hf|].
  eapply yields_bind; [apply IH|]. apply yields_ret.
Qed.

Lemma insertM_sorted host x (l : list AgendaItem) :
  (exists t, itemTime host x = Num t) ->
  Forall (fun it => exists t, itemTime host it = Num t) l ->
  StronglySorted (earlier host) l ->
  exists r,
    yields (insertM (compareItems host) x l) r /\
    Permutation r (x :: l) /\
    StronglySorted (earlier host) r.
Proof.
  intros [a Ea] Hl Hs. induction l as [|y l IH].
  - exists [x]. split; [apply yields_ret|]. split; [done|].
    by repeat constructor.
  - apply Forall_cons in Hl as [[b Eb] Hl].
    apply StronglySorted_inv in Hs as [Hs Hy].
    cbn [insertM].
    destruct (Z.ltb_spec 0 (a - b)) as [G|G].
    + destruct (IH Hl Hs) as (r & Yr & Pr & Sr).
      exists (y :: r). split; [|split].
      * eapply yields_bind; [apply compareItems_yields|].
        rewrite Ea, Eb. cbn [num_sub num_lt].
        replace (0 <? a - b) with true by (symmetry; apply Z.ltb_lt; lia).
        eapply yields_bind; [exact Yr | apply yields_ret].
      * rewrite Pr. apply perm_swap.
      * constructor; [exact Sr|].
        rewrite Pr. constructor; [|exact Hy].
        exists b, a. repeat split; [done|done|lia].
    + exists (x :: y :: l). split; [|split].
      * eapply yields_bind; [apply compareItems_yields|].
        rewrite Ea, Eb. cbn [num_sub num_lt].
        replace (0 <? a - b) with false by (symmetry; apply Z.ltb_ge; lia).
        apply yields_ret.
      * done.
      * constructor; [by constructor|].
        constructor; [exists a, b; repeat split; [done|done|lia]|].
        eapply Forall_impl; [exact Hy|].
        intros z (b' & c & Eb' & Ec & L). rewrite Eb in Eb'.
        injection Eb' as <-. exists a, c. repeat split; [done|done|lia].
Qed.

Lemma sortM_sorted host (l : list AgendaItem) :
  Forall (fun it => exists t, itemTime host it = Num t) l ->
  exists r,
    yields (sortM (compareItems host) l) r /\
    Permutation r l /\
    StronglySorted (earlier host) r.
Proof.
  induction l as [|x l IH]; intros Hl.
  - exists []. split; [apply yields_ret|]. split; [done | constructor].
  - apply Forall_cons in Hl as [Hx Hl].
    destruct (IH Hl) as (r' & Yr' & Pr' & Sr').
    destruct (insertM_sorted host x r' Hx) as (r & Yr & Pr & Sr);
      [by rewrite Pr' | exact Sr' |].
    exists r. split; [|split].
    + cbn [sortM]. eapply yields_bind; [exact Yr' | exact Yr].
    + rewrite Pr. by constructor.
    + exact Sr.
Qed.

Lemma future_items_valid host (userData : list AgendaItem) :
  Forall (fun it => exists t td,
            itemTime host it = Num t /\
            getTodayUTC_value host = Num td /\ td <= t)
    (List.filter (fun it => num_ge (itemTime host it) (getTodayUTC_value host))
                 userData).
Proof.
  apply Forall_forall. intros it Hin.
  apply list_elem_of_In, filter_In in Hin as [_ G].
  destruct (itemTime host it) as [|t]; [done|].
  destruct (getTodayUTC_value host) as [|td]; [done|].
  exists t, td. cbn [num_ge] in G. apply Z.leb_le in G. done.
Qed.

Lemma futureRevisions_run host (userData : list AgendaItem) :
  exists result,
    yields (futureRevisions host userData) result /\
    Permutation result
      (List.filter
         (fun it => num_ge (itemTime host it) (getTodayUTC_value host))
         userData) /\
    StronglySorted (earlier host) result.
Proof.
  pose proof (future_items_valid host userData) as V.
  destruct (sortM_sorted host
              (List.filter
                 (fun it => num_ge (itemTime host it) (getTodayUTC_value host))
                 userData)) as (r & Yr & Pr & Sr).
  { eapply Forall_impl; [exact V|]. intros it (t & _ & E & _). by exists t. }
  exists r. split; [|split; [exact Pr | exact Sr]].
  unfold futureRevisions. eapply yields_bind; [|exact Yr].
  apply filterM_yields. intros x. apply isFutureItem_yields.
Qed.

(** X21. The agenda shows the upcoming revisions in chronological order:
    whatever the stored records, [futureRevisions] returns, without
    throwing, exactly the records whose date is valid and not before
    today, each as often as it is stored, sorted by date. *)
Theorem futureRevisions_sorted host (userData : list AgendaItem) :
  exists result,
    yields (futureRevisions host userData) result /\
    Permutation result
      (List.filter
         (fun it => num_ge (itemTime host it) (getTodayUTC_value host))
         userData) /\
    StronglySorted (earlier host) result /\
    Forall (fun it => exists t td,
              itemTime host it = Num t /\
              getTodayUTC_value host = Num td /\ td <= t) result.
Proof.
  destruct (futureRevisions_run host userData) as (r & Yr & Pr & Sr).
  exists r. split; [exact Yr|]. split; [exact Pr|]. split; [exact Sr|].
  rewrite Pr. apply future_items_valid.
Qed.

(** X22. What the agenda shows for a stored topic.  When the five
    revision dates are valid, the lines of the records stored for a topic
    show, on any host, the strings [formatDate] makes of the revision dates
    themselves, in the template, beside the escaped topic: storing the dates as ISO strings
    and reading them back changes nothing. *)
Theorem agenda_shows_schedule host host' topicName s h t :
  Date_parse host (s +:+ "T00:00:00.000Z") = Num t ->
  in_range t ->
  in_range (MakeDayZ (YearFromTime t + 1) (MonthFromTime t) (DateFromTime t)
            * msPerDay + TimeWithinDay t) ->
  exists ls h' items shown,
    calculateRevisionDates host s h = (Ok ls, h') /\
    agendaItems host topicName s h = (Ok items, h') /\
    mapM formatDate ls h' = (Ok shown, h') /\
    yields (mapM (agendaItemHTML host') items)
           ((fun str => agendaItemTemplate str (escapeHtml topicName))
              <$> shown).
Proof.
  intros P Ht Hlast.
  destruct (schedule_values host s h t P Ht Hlast)
    as (l1 & l2 & l3 & l4 & l5 & h' & v1 & v2 & v3 & v4 & v5 & R & V1 & V2
        & V3 & V4 & V5 & O1 & O2 & O3 & [_ Hr] & _).
  destruct Ht as [Hlo _].
  assert (F : Forall2 (fun l v => h' !! l = Some (Num v) /\ in_range v)
                [l1; l2; l3; l4; l5] [v1; v2; v3; v4; v5]).
  { repeat (apply Forall2_cons_2;
            [split; [assumption | unfold in_range; lia]|]).
    apply Forall2_nil_2. }
  destruct (mapM_items topicName s h' _ _ F) as (items & RI & FI).
  exists [l1; l2; l3; l4; l5], h', items,
    (formatDate_value <$> (Num <$> [v1; v2; v3; v4; v5])).
  split; [exact R|]. split.
  { unfold agendaItems. erewrite bind_ok by exact R. exact RI. }
  split.
  { apply mapM_formatDate.
    repeat (apply Forall2_cons_2; [assumption|]). apply Forall2_nil_2. }
  assert (E : (fun it => agendaItemTemplate
                          (formatDate_value (itemTime host' it))
                          (escapeHtml (item_topic it))) <$> items =
              (fun str => agendaItemTemplate str (escapeHtml topicName)) <$>
                (formatDate_value <$> (Num <$> [v1; v2; v3; v4; v5]))).
  { clear -FI. induction FI as [|v it vs its (Et & _ & Ev) _ IH]; [done|].
    cbn [fmap list_fmap] in *. rewrite IH, Et, Ev. reflexivity. }
  rewrite <- E. apply mapM_yields. intros it. apply agendaItemHTML_yields.
Qed.

Lemma agenda_shows_schedule_witness :
  Date_parse strictHost ("2026-07-19" +:+ "T00:00:00.000Z")
    = Num 1784419200000 /\
  exists ls h' items shown,
    calculateRevisionDates strictHost "2026-07-19" ∅ = (Ok ls, h') /\
    agendaItems strictHost "JS" "2026-07-19" ∅ = (Ok items, h') /\
    mapM formatDate ls h' = (Ok shown, h') /\
    yields (mapM (agendaItemHTML eveningHost) items)
           ((fun str => agendaItemTemplate str (escapeHtml "JS")) <$> shown).
Proof.
  assert (P : Date_parse strictHost ("2026-07-19" +:+ "T00:00:00.000Z")
              = Num 1784419200000) by reflexivity.
  split; [exact P|].
  apply (agenda_shows_schedule strictHost eveningHost "JS" _ ∅ _ P);
    vm_compute; split; discriminate.
Defined.

(** X23. For stored records whose topic and dates are strings, as the form
    handler writes them, [displayUserAgenda] returns the page's HTML:
    without records it shows that there are no topics; with records of
    which none is upcoming it shows that there are no upcoming revisions;
    otherwise it shows one line for each upcoming record, in chronological
    order, with its formatted date and its escaped topic. *)
Theorem displayUserAgenda_cases host (userData : option (list AgendaItem)) :
  let future :=
    List.filter (fun it => num_ge (itemTime host it) (getTodayUTC_value host))
                (default [] userData) in
  exists html,
    yields (displayUserAgenda host userData) html /\
    (default [] userData = [] -> html = noTopicsHTML) /\
    (default [] userData <> [] -> future = [] -> html = noUpcomingHTML) /\
    (future <> [] ->
     exists sorted,
       Permutation sorted future /\
       StronglySorted (earlier host) sorted /\
       html = String.concat EmptyString
                ((fun it => agendaItemTemplate
                              (formatDate_value (itemTime host it))
                              (escapeHtml (item_topic it))) <$> sorted)).
Proof.
  intros future.
  destruct userData as [[|x data]|]; unfold default in *;
    cbn [from_option id] in *.
  - exists noTopicsHTML. split; [apply yields_ret|]. by repeat split.
  - destruct (futureRevisions_run host (x :: data)) as (r & Yr & Pr & Sr).
    fold future in Pr.
    destruct r as [|y r].
    + exists noUpcomingHTML. split; [|split; [by intros [=]|split; [done|]]].
      * cbn [displayUserAgenda]. eapply yields_bind; [exact Yr|].
        apply yields_ret.
      * intros NE. apply Permutation_nil in Pr. done.
    + eexists. split; [|split; [by intros [=]|split]].
      * cbn [displayUserAgenda]. eapply yields_bind; [exact Yr|].
        cbv iota. eapply yields_bind; [|apply yields_ret].
        apply mapM_yields. intros it. apply agendaItemHTML_yields.
      * intros _ E. rewrite E in Pr. symmetry in Pr.
        apply Permutation_nil in Pr. done.
      * intros _. exists (y :: r). by repeat split.
  - exists noTopicsHTML. split; [apply yields_ret|]. by repeat split.
Qed.

End Agenda.

(** ** Calendar days *)

Section Days.
Implicit Types (h : gmap loc Number) (date : loc) (host : Host).

Lemma fields_same_day t1 t2 :
  Day t1 = Day t2 -> utcFields t1 = utcFields t2.
Proof.
  intros E. unfold utcFields, DateFromTime, MonthFromTime, InLeapYear,
    DayWithinYear, YearFromTime. by rewrite E.
Qed.

(** X24. [formatDate] shows the UTC calendar day and nothing else: two
    dates on the same UTC day, whatever their time of day, give the same
    string. *)
Theorem formatDate_same_day h d1 d2 t1 t2 :
  h !! d1 = Some (Num t1) -> h !! d2 = Some (Num t2) ->
  Day t1 = Day t2 ->
  exists s, formatDate d1 h = (Ok s, h) /\ formatDate d2 h = (Ok s, h).
Proof.
  intros E1 E2 ED. exists (formatDate_value (Num t1)).
  split; [by apply formatDate_run|].
  rewrite (formatDate_run h d2 (Num t2) E2). do 2 f_equal.
  pose proof (fields_same_day t1 t2 ED) as F. unfold utcFields in F.
  injection F as FY FM FD.
  unfold formatDate_value, UTCDate, UTCFullYear, field.
  by rewrite FY, FM, FD.
Qed.

Lemma formatDate_same_day_witness :
  ({[1%positive := Num 0; 2%positive := Num 3600000]} : gmap loc Number)
    !! 1%positive = Some (Num 0) /\
  ({[1%positive := Num 0; 2%positive := Num 3600000]} : gmap loc Number)
    !! 2%positive = Some (Num 3600000) /\
  Day 0 = Day 3600000 /\
  exists s,
    formatDate 1%positive {[1%positive := Num 0; 2%positive := Num 3600000]}
      = (Ok s, {[1%positive := Num 0; 2%positive := Num 3600000]}) /\
    formatDate 2%positive {[1%positive := Num 0; 2%positive := Num 3600000]}
      = (Ok s, {[1%positive := Num 0; 2%positive := Num 3600000]}).
Proof.
  assert (E1 : ({[1%positive := Num 0; 2%positive := Num 3600000]}
                 : gmap loc Number) !! 1%positive = Some (Num 0))
    by reflexivity.
  assert (E2 : ({[1%positive := Num 0; 2%positive := Num 3600000]}
                 : gmap loc Number) !! 2%positive = Some (Num 3600000))
    by reflexivity.
  assert (ED : Day 0 = Day 3600000) by reflexivity.
  split; [exact E1|]. split; [exact E2|]. split; [exact ED|].
  exact (formatDate_same_day _ _ _ _ _ E1 E2 ED).
Defined.

Lemma fields_of_month_offset t k :
  DateFromTime t <= 28 ->
  utcFields (MakeDayZ (YearFromTime t) (MonthFromTime t + k) (DateFromTime t)
             * msPerDay + TimeWithinDay t)
  = (YearFromTime t + (MonthFromTime t + k) / 12,
     (MonthFromTime t + k) mod 12, DateFromTime t).
Proof.
  intros H28. apply fields_of_MakeDayZ; [|apply TimeWithinDay_bounds].
  pose proof (DateFromTime_range t) as Hd.
  pose proof (DaysInMonth_bounds
                (YearFromTime t + (MonthFromTime t + k) / 12)
                ((MonthFromTime t + k) mod 12)).
  lia.
Qed.

Lemma fields_of_year_offset t :
  DateFromTime t <= 28 ->
  utcFields (MakeDayZ (YearFromTime t + 1) (MonthFromTime t) (DateFromTime t)
             * msPerDay + TimeWithinDay t)
  = (YearFromTime t + 1, MonthFromTime t, DateFromTime t).
Proof.
  intros H28.
  pose proof (MonthFromTime_range t) as Hm.
  pose proof (DateFromTime_range t) as Hd.
  assert (Hdiv : MonthFromTime t / 12 = 0) by dlia.
  assert (Hmod : MonthFromTime t mod 12 = MonthFromTime t) by dlia.
  pose proof (fields_of_MakeDayZ (YearFromTime t + 1) (MonthFromTime t)
                (DateFromTime t) (TimeWithinDay t)) as F.
  rewrite Hdiv, Hmod, Z.add_0_r in F. apply F; [|apply TimeWithinDay_bounds].
  pose proof (DaysInMonth_bounds (YearFromTime t + 1) (MonthFromTime t)).
  lia.
Qed.

(** X25. A start date on one of the first 28 days of its month: the
    revision dates one, three and six months and one year on fall on the
    same day of the month, in the month and the year counted from the
    start, at the same time of day. *)
Theorem schedule_keeps_day_of_month host s h t :
  Date_parse host (s +:+ "T00:00:00.000Z") = Num t ->
  in_range t ->
  in_range (MakeDayZ (YearFromTime t + 1) (MonthFromTime t) (DateFromTime t)
            * msPerDay + TimeWithinDay t) ->
  DateFromTime t <= 28 ->
  exists l1 l2 l3 l4 l5 h' v2 v3 v4 v5,
    calculateRevisionDates host s h = (Ok [l1; l2; l3; l4; l5], h') /\
    h' !! l2 = Some (Num v2) /\ h' !! l3 = Some (Num v3) /\
    h' !! l4 = Some (Num v4) /\ h' !! l5 = Some (Num v5) /\
    utcFields v2 = (YearFromTime t + (MonthFromTime t + 1) / 12,
                    (MonthFromTime t + 1) mod 12, DateFromTime t) /\
    utcFields v3 = (YearFromTime t + (MonthFromTime t + 3) / 12,
                    (MonthFromTime t + 3) mod 12, DateFromTime t) /\
    utcFields v4 = (YearFromTime t + (MonthFromTime t + 6) / 12,
                    (MonthFromTime t + 6) mod 12, DateFromTime t) /\
    utcFields v5 = (YearFromTime t + 1, MonthFromTime t, DateFromTime t) /\
    Forall (fun v => TimeWithinDay v = TimeWithinDay t) [v2; v3; v4; v5].
Proof.
  intros P Ht Hlast H28.
  destruct (schedule_values host s h t P Ht Hlast)
    as (l1 & l2 & l3 & l4 & l5 & h' & v1 & v2 & v3 & v4 & v5 & R & V1 & V2
        & V3 & V4 & V5 & _ & _ & _ & _ & _ & E2 & E3 & E4 & E5).
  exists l1, l2, l3, l4, l5, h', v2, v3, v4, v5.
  split; [exact R|]. do 4 (split; [assumption|]).
  pose proof (TimeWithinDay_bounds t) as Htod.
  split; [rewrite E2; exact (fields_of_month_offset t 1 H28)|].
  split; [rewrite E3; exact (fields_of_month_offset t 3 H28)|].
  split; [rewrite E4; exact (fields_of_month_offset t 6 H28)|].
  split; [rewrite E5; exact (fields_of_year_offset t H28)|].
  rewrite E2, E3, E4, E5.
  repeat (apply Forall_cons_2; [exact (TimeWithinDay_MakeDate _ _ Htod)|]).
  apply Forall_nil_2.
Qed.

Lemma schedule_keeps_day_of_month_witness :
  Date_parse strictHost ("2026-07-19" +:+ "T00:00:00.000Z")
    = Num 1784419200000 /\
  exists l1 l2 l3 l4 l5 h' v2 v3 v4 v5,
    calculateRevisionDates strictHost "2026-07-19" ∅
      = (Ok [l1; l2; l3; l4; l5], h') /\
    h' !! l2 = Some (Num v2) /\ h' !! l3 = Some (Num v3) /\
    h' !! l4 = Some (Num v4) /\ h' !! l5 = Some (Num v5) /\
    utcFields v2 = (2026, 7, 19).
Proof.
  assert (P : Date_parse strictHost ("2026-07-19" +:+ "T00:00:00.000Z")
              = Num 1784419200000) by reflexivity.
  split; [exact P|].
  destruct (schedule_keeps_day_of_month strictHost _ ∅ _ P)
    as (l1 & l2 & l3 & l4 & l5 & h' & v2 & v3 & v4 & v5 & R & V2 & V3 & V4
        & V5 & F2 & _).
  - vm_compute. split; discriminate.
  - vm_compute. split; discriminate.
  - vm_compute. discriminate.
  - exists l1, l2, l3, l4, l5, h', v2, v3, v4, v5.
    repeat (split; [assumption|]). exact F2.
Defined.

End Days.
